(** * Daily-diet API: the meal routes of [src/routes/meals.ts]

    A shallow embedding of the six route handlers registered by
    [mealsRoutes] and of the pieces of the JavaScript runtime, of zod and
    of knex that they call, followed by the properties of the handlers.

    - The table [meals] is a list of rows in storage order; knex queries
      are functions on that list.
    - A handler is a computation in a small monad that threads the table,
      the log of the queries issued so far and the state of the UUID
      generator, and that either returns a reply or throws.
    - What belongs to the environment and is not fixed by the source (the
      UUID syntax check of zod, [Date.parse], the local time zone, the
      order the SQL engine gives to rows of equal date, the generator
      behind [randomUUID]) is collected in two interfaces, [Runtime] and
      [Engine]; a concrete instance of each is given. *)

From Stdlib Require Import ZArith List String Ascii Bool Arith Lia.
From Stdlib Require Import Permutation Sorted.
Import ListNotations.

(* ================================================================== *)
(** ** JavaScript values and [Date] *)

Module Js.

Local Open Scope Z_scope.

(** A JSON value as a handler sees it in [request.body]. Numbers are
    the integral ones (a time value is integral after [TimeClip]); an
    array or an object carries the string [ToPrimitive] gives it, which
    is all [new Date(v)] looks at. *)
Inductive json : Type :=
| JNull
| JBool (b : bool)
| JNum (n : Z)
| JStr (s : string)
| JObj (prim : string).

Definition msPerDay : Z := 86400000.

(** The largest time value, 8.64e15 ms on either side of the epoch. *)
Definition maxTime : Z := 8640000000000000.

(** [TimeClip]: [None] stands for NaN, the time value of an invalid
    [Date]. *)
Definition TimeClip (t : Z) : option Z :=
  if Z.abs t <=? maxTime then Some t else None.

(** [Day(t)], the number of whole days since the epoch (floor). *)
Definition Day (t : Z) : Z := t / msPerDay.

(** The proleptic Gregorian calendar repeats every 146097 days, an
    era of 400 years. Inside an era, years are taken to begin on the
    first of March, so that a leap day is the last day of its year. *)

(** First day, in the era, of year [yoe] of the era. *)
Definition year_start (yoe : Z) : Z := 365 * yoe + yoe / 4 - yoe / 100.

(** Year of the era of day [doe] of the era. *)
Definition year_of_era (doe : Z) : Z :=
  (doe - doe / 1460 + doe / 36524 - doe / 146096) / 365.

(** Day of the month, 1-based, of day [doy] of a year that begins in
    March: five months take 153 days. *)
Definition day_in_year (doy : Z) : Z :=
  let mp := (5 * doy + 2) / 153 in
  doy - (153 * mp + 2) / 5 + 1.

Definition day_in_era (doe : Z) : Z :=
  day_in_year (doe - year_start (year_of_era doe)).

(** Day of the month of day number [days], day 0 being 1970-01-01 and
    day -719468 being 0000-03-01. *)
Definition day_of_month (days : Z) : Z :=
  let z := days + 719468 in
  let era := z / 146097 in
  day_in_era (z - era * 146097).

Definition InLeapYear (y : Z) : bool :=
  (y mod 4 =? 0) && negb (y mod 100 =? 0) || (y mod 400 =? 0).

Definition DaysInMonth (y m : Z) : Z :=
  if m =? 2 then (if InLeapYear y then 29 else 28)
  else if (m =? 4) || (m =? 6) || (m =? 9) || (m =? 11) then 30
  else 31.

(** Day [d] of month [m] as a day of the year that begins in March. *)
Definition day_of_year (m d : Z) : Z :=
  let mp := if 2 <? m then m - 3 else m + 9 in
  (153 * mp + 2) / 5 + d - 1.

(** Day number of the civil date [y]-[m]-[d], day 0 being 1970-01-01. *)
Definition days_from_civil (y m d : Z) : Z :=
  let y' := if m <=? 2 then y - 1 else y in
  let era := y' / 400 in
  era * 146097 + (year_start (y' - era * 400) + day_of_year m d) - 719468.

(** First day after year [yoe] of the era. *)
Definition next_start (yoe : Z) : Z :=
  if yoe =? 399 then 146097 else year_start (yoe + 1).

(** The check of one year of the era: its first and last day are found
    in it, it lies in the era, and it has 366 days when the civil year
    of its January is a leap year and 365 otherwise. *)
Definition year_ok (yoe : Z) : bool :=
  (year_of_era (year_start yoe) =? yoe)
  && (year_of_era (next_start yoe - 1) =? yoe)
  && (0 <=? year_start yoe)
  && (next_start yoe <=? 146097)
  && (next_start yoe - year_start yoe
      =? (if InLeapYear (yoe + 1) then 366 else 365)).

Definition Z_range (lo n : nat) : list Z := map Z.of_nat (seq lo n).

(** [DateFromTime(t)]. *)
Definition DateFromTime (t : Z) : Z := day_of_month (Day t).

End Js.

Import Js.

(* ================================================================== *)
(** ** Environment of the handlers *)

(** What the handlers take from Node, zod and the host. *)
Class Runtime : Type := {
  (** the check behind [z.string().uuid()] *)
  is_uuid : string -> bool;
  (** [Date.parse]; [None] is NaN *)
  Date_parse : string -> option Z;
  (** offset of local time from UTC at time value [t], in ms *)
  LocalTZA : Z -> Z;
  (** the [n]-th string produced by [crypto.randomUUID] *)
  uuid_source : nat -> string
}.

(** One row of table [meals]. *)
Record Meal : Type := {
  id : string;
  user_id : string;
  name : string;
  description : string;
  is_on_diet : bool;
  date : Z
}.

(** Modelled from the spec: the migration that declares table [meals]
    is not in the sources; by section 3 of the specification an [id] is
    globally unique, that is, [id] is a key of the table. *)
Definition unique_ids (t : list Meal) : Prop := NoDup (map id t).

(** [ORDER BY date DESC]: the engine returns the rows it is given, most
    recent first; the relative order of rows of equal date is the
    engine's choice. *)
Definition date_desc (a b : Meal) : Prop := (date b <= date a)%Z.

Class Engine : Type := {
  order_by_date_desc : list Meal -> list Meal;
  order_by_perm : forall l, Permutation (order_by_date_desc l) l;
  order_by_sorted : forall l, StronglySorted date_desc (order_by_date_desc l)
}.

(* ================================================================== *)
(** ** Requests, replies and the handler monad *)

(** [request.user]. The routes run behind the [checkSessionIdExists]
    pre-handler, which sets it: a handler starts with an acting user. *)
Record User : Type := { uid : string }.

Module Body.
(** The keys of [request.body] that the schemas read; [None] is an
    absent key. *)
Record t : Type := {
  name : option json;
  description : option json;
  isOnDiet : option json;
  date : option json
}.
End Body.

Record Request : Type := {
  user : User;
  (** [request.params.id], for the routes with [/:id] *)
  params_id : string;
  (** [None]: no body, or a body that is not a JSON object *)
  body : option Body.t
}.

Record Metrics : Type := {
  totalMeals : nat;
  totalMealsOnDiet : nat;
  totalMealsOffDiet : nat;
  bestOnDietSequence : nat
}.

Inductive Payload : Type :=
| NoBody
| MessageBody (message : string)
| ErrorBody (error : string)
| MealsBody (meals : list Meal)
| MealBody (meal : Meal)
| MetricsBody (m : Metrics).

Record Reply : Type := { status : nat; payload : Payload }.

(** A [ZodError], as the paths of its issues in schema order; the empty
    string is the root. *)
Inductive Error : Type :=
| ZodError (issues : list string).

Inductive Query : Type :=
| Insert (row : Meal)
| FirstWhereId (i : string)
| UpdateWhereId (i : string) (n d : string) (f : bool) (dt : Z)
| DeleteWhereId (i : string)
| WhereUserOrderByDateDesc (u : string)
| CountWhereUserOnDiet (u : string) (f : bool).

Record World : Type := {
  meals : list Meal;
  (** queries sent to the store so far, oldest first *)
  issued : list Query;
  (** number of calls of [randomUUID] so far *)
  uuid_tick : nat
}.

Inductive Outcome (A : Type) : Type :=
| Returned (a : A)
| Threw (e : Error).
Arguments Returned {A} a.
Arguments Threw {A} e.

Definition M (A : Type) : Type := World -> Outcome A * World.

Definition ret {A} (a : A) : M A := fun w => (Returned a, w).

Definition throw {A} (e : Error) : M A := fun w => (Threw e, w).

Definition bind {A B} (m : M A) (k : A -> M B) : M B :=
  fun w =>
    match m w with
    | (Returned a, w') => k a w'
    | (Threw e, w') => (Threw e, w')
    end.

Notation "x <- m ;; k" := (bind m (fun x => k))
  (at level 61, m at next level, right associativity).
Notation "m ;;; k" := (bind m (fun _ => k))
  (at level 61, right associativity).

(** [schema.parse(v)]: the parsed value, or the [ZodError] thrown. *)
Definition parse {A} (r : list string + A) : M A :=
  match r with
  | inr a => ret a
  | inl issues => throw (ZodError issues)
  end.

(** Send query [q], which leaves table [t] and answers [a]. *)
Definition query {A} (q : Query) (t : list Meal) (a : A) : M A :=
  fun w => (Returned a,
            {| meals := t; issued := issued w ++ [q]; uuid_tick := uuid_tick w |}).

Definition table : M (list Meal) := fun w => (Returned (meals w), w).

(* ================================================================== *)
(** ** zod schemas *)

(** The values of the two body schemas. *)
Module CreateMealBody.
Record t : Type := {
  name : string;
  description : string;
  isOnDiet : bool;
  date : Z
}.
End CreateMealBody.

Module EditMealBody.
Record t : Type := {
  name : option string;
  description : option string;
  isOnDiet : option bool;
  date : option Z
}.
End EditMealBody.

Section Schemas.

Context {RT : Runtime}.

Local Open Scope string_scope.

(** [z.string()] *)
Definition z_string (v : option json) : option string :=
  match v with
  | Some (JStr s) => Some s
  | _ => None
  end.

(** [z.boolean()] *)
Definition z_boolean (v : option json) : option bool :=
  match v with
  | Some (JBool b) => Some b
  | _ => None
  end.

(** The time value of [new Date(v)]: a string goes through
    [Date.parse], anything else through [ToNumber]; [undefined] gives
    NaN. *)
Definition new_Date (v : option json) : option Z :=
  match v with
  | None => None
  | Some JNull => Some 0%Z
  | Some (JBool b) => Some (if b then 1%Z else 0%Z)
  | Some (JNum n) => TimeClip n
  | Some (JStr s) | Some (JObj s) =>
      match Date_parse s with
      | Some t => TimeClip t
      | None => None
      end
  end.

(** [z.coerce.date()]: the input is replaced by [new Date(input)] and
    accepted when that date is valid. A valid [Date] is represented by
    its time value. *)
Definition z_coerce_date (v : option json) : option Z := new_Date v.

(** [schema.optional()]: [undefined] is accepted as it is, before the
    inner schema sees it. *)
Definition z_optional {A} (p : option json -> option A) (v : option json)
  : option (option A) :=
  match v with
  | None => Some None
  | Some _ => option_map Some (p v)
  end.

Definition issue {A} (path : string) (r : option A) : list string :=
  match r with
  | Some _ => []
  | None => [path]
  end.

(** [z.object({ id: z.string().uuid() })] on [request.params]. *)
Definition paramsSchema (i : string) : list string + string :=
  if is_uuid i then inr i else inl ["id"].

Definition createMealBodySchema (b : option Body.t)
  : list string + CreateMealBody.t :=
  match b with
  | None => inl [""]
  | Some b =>
      let n := z_string (Body.name b) in
      let d := z_string (Body.description b) in
      let f := z_boolean (Body.isOnDiet b) in
      let t := z_coerce_date (Body.date b) in
      match n, d, f, t with
      | Some n, Some d, Some f, Some t =>
          inr {| CreateMealBody.name := n;
                 CreateMealBody.description := d;
                 CreateMealBody.isOnDiet := f;
                 CreateMealBody.date := t |}
      | _, _, _, _ =>
          inl (issue "name" n ++ issue "description" d
               ++ issue "isOnDiet" f ++ issue "date" t)%list
      end
  end.

Definition editMealBodySchema (b : option Body.t)
  : list string + EditMealBody.t :=
  match b with
  | None => inl [""]
  | Some b =>
      let n := z_optional z_string (Body.name b) in
      let d := z_optional z_string (Body.description b) in
      let f := z_optional z_boolean (Body.isOnDiet b) in
      let t := z_optional z_coerce_date (Body.date b) in
      match n, d, f, t with
      | Some n, Some d, Some f, Some t =>
          inr {| EditMealBody.name := n;
                 EditMealBody.description := d;
                 EditMealBody.isOnDiet := f;
                 EditMealBody.date := t |}
      | _, _, _, _ =>
          inl (issue "name" n ++ issue "description" d
               ++ issue "isOnDiet" f ++ issue "date" t)%list
      end
  end.

(** [Date.prototype.getTime] *)
Definition getTime (d : Z) : Z := d.

(** [Date.prototype.getDate]: the day of the month in local time. *)
Definition getDate (d : Z) : Z := DateFromTime (d + LocalTZA d).

(** [crypto.randomUUID()] *)
Definition randomUUID : M string :=
  fun w => (Returned (uuid_source (uuid_tick w)),
            {| meals := meals w; issued := issued w;
               uuid_tick := S (uuid_tick w) |}).

End Schemas.

(* ================================================================== *)
(** ** knex queries on table [meals] *)

Definition has_id (i : string) (m : Meal) : bool := String.eqb (id m) i.

Definition owned_by (u : string) (m : Meal) : bool := String.eqb (user_id m) u.

Definition on_diet_is (f : bool) (m : Meal) : bool := Bool.eqb (is_on_diet m) f.

(** The row written by [.update({ name, description, is_on_diet, date })]
    over row [m]: the columns [id] and [user_id] are not in the update. *)
Definition set_columns (n d : string) (f : bool) (dt : Z) (m : Meal) : Meal :=
  {| id := id m; user_id := user_id m;
     name := n; description := d; is_on_diet := f; date := dt |}.

Section Knex.

Context {EN : Engine}.

(** [knex('meals').insert(row)] *)
Definition knex_insert (row : Meal) : M unit :=
  t <- table ;; query (Insert row) (t ++ [row]) tt.

(** [knex('meals').where({ id }).first()] *)
Definition knex_where_id_first (i : string) : M (option Meal) :=
  t <- table ;; query (FirstWhereId i) t (find (has_id i) t).

(** [knex('meals').where({ id }).update({ ... })] *)
Definition knex_where_id_update (i : string) (n d : string) (f : bool) (dt : Z)
  : M unit :=
  t <- table ;;
  query (UpdateWhereId i n d f dt)
        (map (fun m => if has_id i m then set_columns n d f dt m else m) t) tt.

(** [knex('meals').where({ id }).delete()] *)
Definition knex_where_id_delete (i : string) : M unit :=
  t <- table ;;
  query (DeleteWhereId i) (filter (fun m => negb (has_id i m)) t) tt.

(** [knex('meals').where({ user_id }).orderBy('date', 'desc')] *)
Definition knex_where_user_orderBy_date_desc (u : string) : M (list Meal) :=
  t <- table ;;
  query (WhereUserOrderByDateDesc u) t (order_by_date_desc (filter (owned_by u) t)).

(** [knex('meals').where({ user_id, is_on_diet }).count('id', { as: 'total' }).first()],
    read at [.total] *)
Definition knex_where_user_diet_count (u : string) (f : bool) : M nat :=
  t <- table ;;
  query (CountWhereUserOnDiet u f) t
        (List.length (filter (fun m => owned_by u m && on_diet_is f m) t)).

End Knex.

(* ================================================================== *)
(** ** The route handlers *)

(** [a ?? b] *)
Definition nullish {A} (a : option A) (b : A) : A :=
  match a with
  | Some x => x
  | None => b
  end.

(** The accumulator of the [reduce] in the metrics route. *)
Module Acc.
Record t : Type := {
  bestOnDietSequence : nat;
  currentSequence : nat
}.
End Acc.

(** The callback of [totalMeals.reduce]. *)
Definition reducer (acc : Acc.t) (meal : Meal) : Acc.t :=
  let current :=
    if is_on_diet meal then Acc.currentSequence acc + 1 else 0 in
  let best :=
    if Acc.bestOnDietSequence acc <? current
    then current else Acc.bestOnDietSequence acc in
  {| Acc.bestOnDietSequence := best; Acc.currentSequence := current |}.

Definition reduce_sequence (totalMeals : list Meal) : Acc.t :=
  fold_left reducer totalMeals
            {| Acc.bestOnDietSequence := 0; Acc.currentSequence := 0 |}.

Section Routes.

Context {RT : Runtime} {EN : Engine}.

Local Open Scope string_scope.

Definition send (code : nat) (p : Payload) : M Reply :=
  ret {| status := code; payload := p |}.

(** [POST /] *)
Definition post_meal (request : Request) : M Reply :=
  b <- parse (createMealBodySchema (body request)) ;;
  i <- randomUUID ;;
  knex_insert {| id := i;
                 user_id := uid (user request);
                 name := CreateMealBody.name b;
                 description := CreateMealBody.description b;
                 is_on_diet := CreateMealBody.isOnDiet b;
                 date := getTime (CreateMealBody.date b) |} ;;;
  send 201 NoBody.

(** [PUT /:id] *)
Definition put_meal (request : Request) : M Reply :=
  i <- parse (paramsSchema (params_id request)) ;;
  meal <- knex_where_id_first i ;;
  match meal with
  | None => send 404 (MessageBody "Meal not found")
  | Some meal =>
      b <- parse (editMealBodySchema (body request)) ;;
      knex_where_id_update i
        (nullish (EditMealBody.name b) (name meal))
        (nullish (EditMealBody.description b) (description meal))
        (nullish (EditMealBody.isOnDiet b) (is_on_diet meal))
        (nullish (option_map getDate (EditMealBody.date b)) (date meal)) ;;;
      send 201 NoBody
  end.

(** [GET /] *)
Definition get_meals (request : Request) : M Reply :=
  ms <- knex_where_user_orderBy_date_desc (uid (user request)) ;;
  send 200 (MealsBody ms).

(** [GET /:id] *)
Definition get_meal (request : Request) : M Reply :=
  i <- parse (paramsSchema (params_id request)) ;;
  meal <- knex_where_id_first i ;;
  match meal with
  | None => send 404 (ErrorBody "Meal not found")
  | Some meal => send 200 (MealBody meal)
  end.

(** [DELETE /:id] *)
Definition delete_meal (request : Request) : M Reply :=
  i <- parse (paramsSchema (params_id request)) ;;
  meal <- knex_where_id_first i ;;
  match meal with
  | None => send 404 (ErrorBody "Meal not found")
  | Some _ =>
      knex_where_id_delete i ;;;
      send 204 NoBody
  end.

(** [GET /metrics] *)
Definition get_metrics (request : Request) : M Reply :=
  totalMeals <- knex_where_user_orderBy_date_desc (uid (user request)) ;;
  totalMealsOnDiet <- knex_where_user_diet_count (uid (user request)) true ;;
  totalMealsOffDiet <- knex_where_user_diet_count (uid (user request)) false ;;
  let acc := reduce_sequence totalMeals in
  send 200 (MetricsBody
    {| totalMeals := List.length totalMeals;
       totalMealsOnDiet := totalMealsOnDiet;
       totalMealsOffDiet := totalMealsOffDiet;
       bestOnDietSequence := Acc.bestOnDietSequence acc |}).

End Routes.

(** Modelled from the spec: the error handler that turns a thrown error
    into a response is not in the sources; by section 7 of the
    specification a schema mismatch is surfaced with HTTP 400. *)
Definition surfaced_status (o : Outcome Reply) : nat :=
  match o with
  | Returned r => status r
  | Threw (ZodError _) => 400
  end.

(* ================================================================== *)
(** ** Notions used to state the properties *)

(** The longest-streak computation as the specification words it: the
    running count after each meal of the scan, started at [current],
    goes up by one on an on-diet meal and back to zero on an off-diet
    meal; the result is the largest running count seen. *)
Fixpoint running_counts (current : nat) (flags : list bool) : list nat :=
  match flags with
  | [] => []
  | f :: rest =>
      let c := if f then S current else 0 in
      c :: running_counts c rest
  end.

Definition spec_bestOnDietSequence (flags : list bool) : nat :=
  list_max (running_counts 0 flags).

(** [flags] holds [k] on-diet meals in a row. *)
Definition has_run (k : nat) (flags : list bool) : Prop :=
  exists before after, flags = before ++ repeat true k ++ after.

(** Number of on-diet rows of a list. *)
Definition on_diet_count (ms : list Meal) : nat :=
  List.length (filter is_on_diet ms).

(** The rows of [u] in table [t], as [.where({ user_id: u })] selects
    them. *)
Definition owned (u : string) (t : list Meal) : list Meal :=
  filter (owned_by u) t.

(** The world after the lookup [.where({ id: i }).first()]: the table
    is the same, the log is one query longer. *)
Definition looked_up (i : string) (w : World) : World :=
  {| meals := meals w;
     issued := issued w ++ [FirstWhereId i];
     uuid_tick := uuid_tick w |}.

Section Edited.

Context {RT : Runtime}.

(** The columns [PUT /:id] writes over row [meal] for the parsed body
    [b], as the four [??] of the route give them. *)
Definition edited (b : EditMealBody.t) (meal : Meal) : Meal -> Meal :=
  set_columns
    (nullish (EditMealBody.name b) (name meal))
    (nullish (EditMealBody.description b) (description meal))
    (nullish (EditMealBody.isOnDiet b) (is_on_diet meal))
    (nullish (option_map getDate (EditMealBody.date b)) (date meal)).

End Edited.

Section Created.

Context {RT : Runtime}.

(** The row [POST /] inserts in world [w] for the parsed body [b]. *)
Definition created (request : Request) (w : World) (b : CreateMealBody.t)
  : Meal :=
  {| id := uuid_source (uuid_tick w);
     user_id := uid (user request);
     name := CreateMealBody.name b;
     description := CreateMealBody.description b;
     is_on_diet := CreateMealBody.isOnDiet b;
     date := getTime (CreateMealBody.date b) |}.

End Created.

(** The rewriting of the rows of id [i] by [.where({ id: i }).update]. *)
Definition rewrite_id (i : string) (f : Meal -> Meal) (m : Meal) : Meal :=
  if has_id i m then f m else m.

(** The rows that [.where({ id: i }).delete()] keeps. *)
Definition other_id (i : string) (m : Meal) : bool := negb (has_id i m).

(* ================================================================== *)
(** ** A concrete environment *)

Module Host.

Local Open Scope string_scope.
Local Open Scope nat_scope.

Definition is_hex (c : ascii) : bool :=
  let n := nat_of_ascii c in
  ((48 <=? n) && (n <=? 57)) || ((65 <=? n) && (n <=? 70))
  || ((97 <=? n) && (n <=? 102)).

(** Does [s] consist of groups of hexadecimal digits of the lengths
    [groups], joined by hyphens, [k] digits of the first group being
    still due? *)
Fixpoint hex_groups (k : nat) (groups : list nat) (s : string) : bool :=
  match s with
  | EmptyString =>
      match k, groups with
      | 0, [] => true
      | _, _ => false
      end
  | String c r =>
      match k with
      | S k' => is_hex c && hex_groups k' groups r
      | 0 =>
          match groups with
          | g :: gs => Ascii.eqb c "-"%char && hex_groups g gs r
          | [] => false
          end
      end
  end.

(** The 8-4-4-4-12 shape of a UUID. *)
Definition uuid_shape (s : string) : bool := hex_groups 8 [4; 4; 4; 12] s.

Definition hex_digit (n : nat) : ascii :=
  ascii_of_nat (if n <? 10 then 48 + n else 87 + n).

Fixpoint hex_of (digits n : nat) : string :=
  match digits with
  | 0 => EmptyString
  | S k => hex_of k (n / 16) ++ String (hex_digit (n mod 16)) EmptyString
  end.

(** A generator of version-4 UUIDs that never repeats within 16^12
    calls. *)
Definition nth_uuid (n : nat) : string :=
  "00000000-0000-4000-8000-" ++ hex_of 12 n.

Definition digit_of (c : ascii) : option Z :=
  let n := nat_of_ascii c in
  if (48 <=? n) && (n <=? 57) then Some (Z.of_nat (n - 48)) else None.

Fixpoint decimal (acc : Z) (cs : list ascii) : option Z :=
  match cs with
  | [] => Some acc
  | c :: r =>
      match digit_of c with
      | Some d => decimal (10 * acc + d)%Z r
      | None => None
      end
  end.

(** A [Date.parse] for the date-only form [YYYY-MM-DD] of the
    date-time string format, which denotes midnight UTC of that day.
    Every other string is refused here; an engine may read more. *)
Definition parse_date_only (s : string) : option Z :=
  match list_ascii_of_string s with
  | [y1; y2; y3; y4; h1; m1; m2; h2; d1; d2] =>
      if Ascii.eqb h1 "-"%char && Ascii.eqb h2 "-"%char then
        match decimal 0 [y1; y2; y3; y4], decimal 0 [m1; m2],
              decimal 0 [d1; d2] with
        | Some y, Some m, Some d =>
            if ((1 <=? m) && (m <=? 12) && (1 <=? d)
                && (d <=? DaysInMonth y m))%Z
            then Some (days_from_civil y m d * msPerDay)%Z
            else None
        | _, _, _ => None
        end
      else None
  | _ => None
  end.

(** Node with [TZ=UTC]. *)
#[export] Instance utc : Runtime := {
  is_uuid := uuid_shape;
  Date_parse := parse_date_only;
  LocalTZA := fun _ => 0%Z;
  uuid_source := nth_uuid
}.

(** The same host three hours west of Greenwich. *)
Definition brt : Runtime := {|
  is_uuid := uuid_shape;
  Date_parse := parse_date_only;
  LocalTZA := fun _ => (-10800000)%Z;
  uuid_source := nth_uuid
|}.

(** An engine that sorts by stable insertion: rows of equal date keep
    their storage order. *)
Fixpoint insert_desc (m : Meal) (l : list Meal) : list Meal :=
  match l with
  | [] => [m]
  | x :: r =>
      if (date x <=? date m)%Z then m :: l else x :: insert_desc m r
  end.

Definition sort_desc (l : list Meal) : list Meal :=
  fold_right insert_desc [] l.

End Host.

(* ================================================================== *)
(** ** The routes on a sample table *)

Module Sample.

Import Host.

Local Open Scope string_scope.
Local Open Scope list_scope.

Fixpoint distinct (l : list string) : bool :=
  match l with
  | [] => true
  | x :: r => negb (existsb (String.eqb x) r) && distinct r
  end.

Definition all_other (i : string) (t : list Meal) : bool :=
  forallb (fun r => negb (has_id i r)) t.

Definition alice : User := {| uid := "alice" |}.
Definition bob : User := {| uid := "bob" |}.

Definition day (n : Z) : Z := (1709208000000 + n * msPerDay)%Z.

Definition row (k : nat) (owner : string) (f : bool) (d : Z) : Meal :=
  {| id := nth_uuid k; user_id := owner; name := "meal";
     description := "as planned"; is_on_diet := f; date := d |}.

(** Six meals of alice, stored out of date order, and one of bob. Most
    recent first, alice's flags read true, true, false, true, true,
    true. *)
Definition rows : list Meal :=
  [ row 0 "alice" true (day 3);
    row 1 "bob" false (day 9);
    row 2 "alice" true (day 6);
    row 3 "alice" false (day 4);
    row 4 "alice" true (day 1);
    row 5 "alice" true (day 5);
    row 6 "alice" true (day 2) ].

Definition world : World :=
  {| meals := rows; issued := []; uuid_tick := 7 |}.

Definition no_keys : Body.t :=
  {| Body.name := None; Body.description := None;
     Body.isOnDiet := None; Body.date := None |}.

Definition by_id (u : User) (i : string) (b : option Body.t) : Request :=
  {| user := u; params_id := i; body := b |}.

(** A change of name and date, the other two keys absent. *)
Definition rename : Body.t :=
  {| Body.name := Some (JStr "lunch"); Body.description := None;
     Body.isOnDiet := None; Body.date := Some (JNum (day 40)) |}.

Definition renamed : EditMealBody.t :=
  {| EditMealBody.name := Some "lunch"; EditMealBody.description := None;
     EditMealBody.isOnDiet := None; EditMealBody.date := Some (day 40) |}.

Definition new_meal : Body.t :=
  {| Body.name := Some (JStr "soup"); Body.description := Some (JStr "late");
     Body.isOnDiet := Some (JBool true); Body.date := Some (JStr "2024-02-29") |}.

(** A table that already holds a row under the UUID the generator
    draws next. *)
Definition clash : World :=
  {| meals := [ row 7 "alice" false (day 1) ]; issued := []; uuid_tick := 7 |}.

End Sample.


(* ================================================================== *)
(** ** The insertion engine is lawful *)

Module Insertion.

Import Host.

Lemma insert_desc_perm (m : Meal) (l : list Meal) :
  Permutation (insert_desc m l) (m :: l).
Proof.
  induction l as [|x r IH]; simpl.
  - apply Permutation_refl.
  - destruct (date x <=? date m)%Z.
    + apply Permutation_refl.
    + eapply perm_trans; [apply perm_skip, IH | apply perm_swap].
Qed.

Lemma sort_desc_perm (l : list Meal) : Permutation (sort_desc l) l.
Proof.
  induction l as [|x r IH]; simpl.
  - constructor.
  - eapply perm_trans; [apply insert_desc_perm | apply perm_skip, IH].
Qed.

Lemma insert_desc_sorted (m : Meal) (l : list Meal) :
  StronglySorted date_desc l -> StronglySorted date_desc (insert_desc m l).
Proof.
  induction 1 as [|x r Hs IH Hx]; simpl.
  - repeat constructor.
  - destruct (date x <=? date m)%Z eqn:E.
    + apply Z.leb_le in E. constructor.
      * constructor; assumption.
      * constructor; [exact E|].
        rewrite Forall_forall in *. intros y Hy.
        specialize (Hx y Hy). unfold date_desc in *. lia.
    + apply Z.leb_gt in E. constructor; [exact IH|].
      rewrite Forall_forall in *. intros y Hy.
      apply (Permutation_in _ (insert_desc_perm m r)) in Hy.
      destruct Hy as [<-|Hy]; [unfold date_desc; lia | auto].
Qed.

Lemma sort_desc_sorted (l : list Meal) : StronglySorted date_desc (sort_desc l).
Proof.
  induction l as [|x r IH]; simpl.
  - constructor.
  - apply insert_desc_sorted, IH.
Qed.

#[export] Instance insertion : Engine := {
  order_by_date_desc := sort_desc;
  order_by_perm := sort_desc_perm;
  order_by_sorted := sort_desc_sorted
}.

End Insertion.

(* ================================================================== *)
(** ** Facts on dates, tables and the reduction *)

Lemma day_of_month_range (days : Z) : (1 <= day_of_month days <= 31)%Z.
Proof.
  unfold day_of_month, day_in_era, day_in_year.
  set (z := (days + 719468)%Z).
  set (doe := (z - z / 146097 * 146097)%Z).
  generalize (doe - year_start (year_of_era doe))%Z as doy.
  intro doy. cbv zeta.
  pose proof (Z.div_mod (5 * doy + 2) 153 ltac:(lia)) as H1.
  pose proof (Z.mod_pos_bound (5 * doy + 2) 153 ltac:(lia)) as H2.
  set (mp := ((5 * doy + 2) / 153)%Z) in *.
  pose proof (Z.div_mod (153 * mp + 2) 5 ltac:(lia)) as H3.
  pose proof (Z.mod_pos_bound (153 * mp + 2) 5 ltac:(lia)) as H4.
  lia.
Qed.


Lemma has_id_true (i : string) (m : Meal) : has_id i m = true <-> id m = i.
Proof. unfold has_id. apply String.eqb_eq. Qed.

Lemma has_id_false (i : string) (m : Meal) : has_id i m = false <-> id m <> i.
Proof. unfold has_id. apply String.eqb_neq. Qed.

Lemma find_absent (i : string) (t : list Meal) :
  (forall r, In r t -> id r <> i) -> find (has_id i) t = None.
Proof.
  intro H. destruct (find (has_id i) t) as [m|] eqn:E; [|reflexivity].
  apply find_some in E. destruct E as [Hin Hid].
  apply has_id_true in Hid. elim (H m Hin Hid).
Qed.

Lemma find_present (i : string) (t : list Meal) (m : Meal) :
  In m t -> id m = i -> exists m', find (has_id i) t = Some m'.
Proof.
  intros Hin Hid. destruct (find (has_id i) t) as [m'|] eqn:E; [eauto|].
  apply (find_none _ _ E) in Hin. apply has_id_false in Hin. contradiction.
Qed.

(** In a table without two rows of the same id, the row of id [i] cuts
    the table in two parts that hold no row of that id. *)
Lemma unique_split (i : string) (t : list Meal) (m : Meal) :
  NoDup (map id t) -> In m t -> id m = i ->
  exists l1 l2,
    t = l1 ++ m :: l2
    /\ find (has_id i) t = Some m
    /\ Forall (fun r => has_id i r = false) l1
    /\ Forall (fun r => has_id i r = false) l2.
Proof.
  induction t as [|a t IH]; simpl; intros Hnd Hin Hid; [contradiction|].
  inversion Hnd as [|? ? Hna Hnd']; subst.
  destruct Hin as [->|Hin].
  - exists [], t. simpl.
    rewrite (proj2 (has_id_true (id m) m) eq_refl).
    repeat split; [constructor|].
    rewrite Forall_forall. intros r Hr. apply has_id_false. intro E.
    apply Hna. rewrite <- E. apply in_map, Hr.
  - destruct (IH Hnd' Hin eq_refl) as (l1 & l2 & -> & Hf & H1 & H2).
    assert (Ha : has_id (id m) a = false).
    { apply has_id_false. intro E. apply Hna. rewrite E. apply in_map, Hin. }
    exists (a :: l1), l2. simpl. rewrite Ha.
    repeat split; [exact Hf | constructor; assumption | exact H2].
Qed.

Lemma find_app_absent (i : string) (l l' : list Meal) :
  find (has_id i) l = None -> find (has_id i) (l ++ l') = find (has_id i) l'.
Proof.
  induction l as [|a l IH]; simpl; [reflexivity|].
  destruct (has_id i a); [discriminate | exact IH].
Qed.

Lemma map_untouched (i : string) (f : Meal -> Meal) (l : list Meal) :
  Forall (fun r => has_id i r = false) l ->
  map (fun m => if has_id i m then f m else m) l = l.
Proof.
  induction 1 as [|a l Ha _ IH]; simpl; [reflexivity|].
  rewrite Ha, IH. reflexivity.
Qed.

Lemma filter_untouched (i : string) (l : list Meal) :
  Forall (fun r => has_id i r = false) l ->
  filter (fun m => negb (has_id i m)) l = l.
Proof.
  induction 1 as [|a l Ha _ IH]; simpl; [reflexivity|].
  rewrite Ha, IH. reflexivity.
Qed.

Lemma in_filter_other (i : string) (t : list Meal) (r : Meal) :
  In r (filter (fun m => negb (has_id i m)) t) <-> In r t /\ id r <> i.
Proof.
  rewrite filter_In, negb_true_iff, has_id_false. reflexivity.
Qed.

(** The table after [.where({ id }).update(...)] and [.delete()] when
    ids are unique. *)
Lemma update_unique (i : string) (f : Meal -> Meal) (l1 l2 : list Meal) (m : Meal) :
  id m = i ->
  Forall (fun r => has_id i r = false) l1 ->
  Forall (fun r => has_id i r = false) l2 ->
  map (fun r => if has_id i r then f r else r) (l1 ++ m :: l2) = l1 ++ f m :: l2.
Proof.
  intros Hid H1 H2. rewrite map_app. simpl.
  rewrite (proj2 (has_id_true i m) Hid).
  rewrite !map_untouched by assumption. reflexivity.
Qed.

Lemma delete_unique (i : string) (l1 l2 : list Meal) (m : Meal) :
  id m = i ->
  Forall (fun r => has_id i r = false) l1 ->
  Forall (fun r => has_id i r = false) l2 ->
  filter (fun r => negb (has_id i r)) (l1 ++ m :: l2) = l1 ++ l2.
Proof.
  intros Hid H1 H2. rewrite filter_app. simpl.
  rewrite (proj2 (has_id_true i m) Hid). simpl.
  rewrite !filter_untouched by assumption. reflexivity.
Qed.


Lemma reducer_best (acc : Acc.t) (meal : Meal) :
  Acc.bestOnDietSequence (reducer acc meal)
  = Nat.max (Acc.bestOnDietSequence acc) (Acc.currentSequence (reducer acc meal)).
Proof.
  unfold reducer. simpl.
  destruct (Acc.bestOnDietSequence acc <? _) eqn:E.
  - apply Nat.ltb_lt in E. lia.
  - apply Nat.ltb_ge in E. lia.
Qed.

Lemma reducer_current (acc : Acc.t) (meal : Meal) :
  Acc.currentSequence (reducer acc meal)
  = if is_on_diet meal then S (Acc.currentSequence acc) else 0.
Proof.
  unfold reducer. simpl. destruct (is_on_diet meal); [apply Nat.add_1_r | reflexivity].
Qed.

Lemma fold_reducer_best (ms : list Meal) (acc : Acc.t) :
  Acc.bestOnDietSequence (fold_left reducer ms acc)
  = Nat.max (Acc.bestOnDietSequence acc)
            (list_max (running_counts (Acc.currentSequence acc) (map is_on_diet ms))).
Proof.
  revert acc. induction ms as [|m ms IH]; intro acc; simpl fold_left.
  - simpl. lia.
  - rewrite IH, reducer_best, reducer_current. simpl. lia.
Qed.


Lemma fold_reducer_bound (ms : list Meal) (acc : Acc.t) :
  Acc.currentSequence (fold_left reducer ms acc)
    <= Acc.currentSequence acc + on_diet_count ms
  /\ Acc.bestOnDietSequence (fold_left reducer ms acc)
    <= Nat.max (Acc.bestOnDietSequence acc)
               (Acc.currentSequence acc + on_diet_count ms).
Proof.
  revert acc. unfold on_diet_count.
  induction ms as [|m ms IH]; intro acc; simpl fold_left.
  - simpl. lia.
  - destruct (IH (reducer acc m)) as [Hc Hb].
    rewrite reducer_best, reducer_current in *.
    simpl filter. destruct (is_on_diet m); simpl List.length; lia.
Qed.

Lemma filter_length_perm {A} (p : A -> bool) (l l' : list A) :
  Permutation l l' -> List.length (filter p l) = List.length (filter p l').
Proof.
  induction 1 as [| x l l' _ IH | x y l | l l' l'' _ IH1 _ IH2]; simpl.
  - reflexivity.
  - destruct (p x); simpl; congruence.
  - destruct (p x), (p y); reflexivity.
  - congruence.
Qed.

Lemma count_owned_diet (u : string) (f : bool) (t : list Meal) :
  List.length (filter (fun m => owned_by u m && on_diet_is f m) t)
  = List.length (filter (on_diet_is f) (filter (owned_by u) t)).
Proof.
  induction t as [|a t IH]; simpl; [reflexivity|].
  destruct (owned_by u a); simpl; [|exact IH].
  destruct (on_diet_is f a); simpl; congruence.
Qed.

Lemma diet_partition (l : list Meal) :
  List.length l
  = List.length (filter (on_diet_is true) l)
    + List.length (filter (on_diet_is false) l).
Proof.
  induction l as [|a l IH]; simpl; [reflexivity|].
  assert (E : on_diet_is false a = negb (on_diet_is true a)).
  { unfold on_diet_is. destruct (is_on_diet a); reflexivity. }
  rewrite E. destruct (on_diet_is true a); simpl; lia.
Qed.

Lemma on_diet_is_true (l : list Meal) :
  filter (on_diet_is true) l = filter is_on_diet l.
Proof.
  apply filter_ext. intro a. unfold on_diet_is. destruct (is_on_diet a); reflexivity.
Qed.

(** *** The largest running count is the longest run of on-diet meals *)

Lemma list_max_cons (x : nat) (l : list nat) :
  list_max (x :: l) = Nat.max x (list_max l).
Proof. reflexivity. Qed.

Lemma running_counts_cons (c : nat) (f : bool) (rest : list bool) :
  running_counts c (f :: rest)
  = (if f then S c else 0) :: running_counts (if f then S c else 0) rest.
Proof. reflexivity. Qed.

Lemma running_counts_run (k c : nat) (rest : list bool) :
  1 <= k -> c + k <= list_max (running_counts c (repeat true k ++ rest)).
Proof.
  revert c. induction k as [|k IH]; intros c Hk; [lia|].
  cbn [repeat app]. rewrite running_counts_cons, list_max_cons.
  destruct k as [|k]; [lia|].
  specialize (IH (S c) ltac:(lia)). lia.
Qed.

Lemma run_le_max (k c : nat) (flags : list bool) :
  has_run k flags -> k <= list_max (running_counts c flags).
Proof.
  intros (before & after & ->). revert c.
  induction before as [|f before IH]; intro c.
  - destruct k as [|k]; [lia|].
    pose proof (running_counts_run (S k) c after ltac:(lia)). cbn [app]. lia.
  - cbn [app]. rewrite running_counts_cons, list_max_cons.
    specialize (IH (if f then S c else 0)). lia.
Qed.

Lemma running_count_origin (flags : list bool) (c v : nat) :
  In v (running_counts c flags) ->
  (exists j rest, flags = repeat true j ++ rest /\ v = c + j)
  \/ has_run v flags.
Proof.
  revert c. induction flags as [|f flags IH]; intros c Hin; [contradiction|].
  simpl in Hin. destruct Hin as [<-|Hin].
  - destruct f.
    + left. exists 1, flags. split; [reflexivity | lia].
    + right. exists [], (false :: flags). reflexivity.
  - destruct (IH _ Hin) as [(j & rest & -> & ->)|(before & after & ->)].
    + destruct f.
      * left. exists (S j), rest. split; [reflexivity | lia].
      * right. exists [false], rest. reflexivity.
    + right. exists (f :: before), after. reflexivity.
Qed.

Lemma list_max_zero_or_in (l : list nat) : list_max l = 0 \/ In (list_max l) l.
Proof.
  induction l as [|x l IH]; [left; reflexivity|].
  rewrite list_max_cons.
  destruct (Nat.max_spec x (list_max l)) as [[_ ->]|[_ ->]].
  - destruct IH as [->|IH]; [left; reflexivity | right; right; exact IH].
  - right. left. reflexivity.
Qed.

(** The value the specification describes is the length of a run of
    on-diet meals of the scan, and no run is longer. *)
Lemma spec_bestOnDietSequence_longest_run (flags : list bool) :
  has_run (spec_bestOnDietSequence flags) flags
  /\ forall k, has_run k flags -> k <= spec_bestOnDietSequence flags.
Proof.
  unfold spec_bestOnDietSequence. split.
  - destruct (list_max_zero_or_in (running_counts 0 flags)) as [->|Hin].
    + exists [], flags. reflexivity.
    + destruct (running_count_origin _ _ _ Hin) as [(j & rest & E & ->)|H].
      * exists [], rest. exact E.
      * exact H.
  - intros k Hk. apply run_le_max, Hk.
Qed.

(** The same for the [reduce] of the metrics route. *)
Lemma reduce_sequence_longest_run (ms : list Meal) :
  has_run (Acc.bestOnDietSequence (reduce_sequence ms)) (map is_on_diet ms)
  /\ forall k, has_run k (map is_on_diet ms) ->
               k <= Acc.bestOnDietSequence (reduce_sequence ms).
Proof.
  unfold reduce_sequence. rewrite fold_reducer_best. simpl.
  apply spec_bestOnDietSequence_longest_run.
Qed.

(** *** The day of the month is the one of the civil calendar *)

Lemma years_checked : forallb year_ok (Z_range 0 400) = true.
Proof. vm_cast_no_check (eq_refl true). Qed.

Lemma in_Z_range (lo n : nat) (z : Z) :
  (Z.of_nat lo <= z < Z.of_nat lo + Z.of_nat n)%Z -> In z (Z_range lo n).
Proof.
  intro H. unfold Z_range. apply in_map_iff. exists (Z.to_nat z).
  split; [lia|]. apply in_seq. lia.
Qed.

Lemma year_ok_all (yoe : Z) : (0 <= yoe < 400)%Z -> year_ok yoe = true.
Proof.
  intro H. pose proof years_checked as Hall.
  rewrite forallb_forall in Hall. apply Hall, in_Z_range. lia.
Qed.

Section Era.

Local Open Scope Z_scope.

(** The dividend of [year_of_era]. *)
Let g (doe : Z) : Z := doe - doe / 1460 + doe / 36524 - doe / 146096.

Lemma g_step (doe : Z) : 0 <= doe < 146096 -> g doe <= g (doe + 1).
Proof.
  intro H. unfold g. Z.div_mod_to_equations. lia.
Qed.

Lemma g_mono (n : nat) (a : Z) :
  0 <= a -> a + Z.of_nat n <= 146096 -> g a <= g (a + Z.of_nat n).
Proof.
  induction n as [|n IH]; intros Ha Hb.
  - replace (a + Z.of_nat 0) with a by lia. lia.
  - specialize (IH Ha ltac:(lia)).
    pose proof (g_step (a + Z.of_nat n) ltac:(lia)) as Hs.
    replace (a + Z.of_nat (S n)) with (a + Z.of_nat n + 1) by lia. lia.
Qed.

Lemma year_of_era_mono (a b : Z) :
  0 <= a <= b -> b <= 146096 -> year_of_era a <= year_of_era b.
Proof.
  intros Hab Hb. unfold year_of_era. apply Z.div_le_mono; [lia|].
  pose proof (g_mono (Z.to_nat (b - a)) a ltac:(lia) ltac:(lia)) as H.
  replace (a + Z.of_nat (Z.to_nat (b - a))) with b in H by lia.
  exact H.
Qed.

(** Every day of a year of the era is found in that year. *)
Lemma year_of_era_found (yoe doe : Z) :
  0 <= yoe < 400 ->
  year_start yoe <= doe < next_start yoe ->
  year_of_era doe = yoe.
Proof.
  intros Hy Hd. pose proof (year_ok_all yoe Hy) as Hok. unfold year_ok in Hok.
  repeat (apply andb_true_iff in Hok; destruct Hok as [Hok ?]).
  apply Z.eqb_eq in Hok.
  repeat match goal with
         | H : (_ =? _) = true |- _ => apply Z.eqb_eq in H
         | H : (_ <=? _) = true |- _ => apply Z.leb_le in H
         end.
  pose proof (year_of_era_mono (year_start yoe) doe ltac:(lia) ltac:(lia)).
  pose proof (year_of_era_mono doe (next_start yoe - 1) ltac:(lia) ltac:(lia)).
  lia.
Qed.

Lemma year_length (yoe : Z) :
  0 <= yoe < 400 ->
  0 <= year_start yoe
  /\ next_start yoe <= 146097
  /\ next_start yoe - year_start yoe = if InLeapYear (yoe + 1) then 366 else 365.
Proof.
  intro Hy. pose proof (year_ok_all yoe Hy) as Hok. unfold year_ok in Hok.
  repeat (apply andb_true_iff in Hok; destruct Hok as [Hok ?]).
  repeat match goal with
         | H : (_ =? _) = true |- _ => apply Z.eqb_eq in H
         | H : (_ <=? _) = true |- _ => apply Z.leb_le in H
         end.
  auto.
Qed.

(** Decide the tests on a month that is known. *)
Ltac fix_month H :=
  repeat match goal with
         | |- context [Z.ltb ?a ?b] =>
             let v := eval vm_compute in (Z.ltb a b) in
             change (Z.ltb a b) with v
         | _ : context [Z.eqb ?a ?b] |- _ =>
             let v := eval vm_compute in (Z.eqb a b) in
             change (Z.eqb a b) with v in H
         end;
  cbn [orb] in H; cbv beta iota zeta in H |- *.

Lemma twelve_months (m : Z) :
  1 <= m <= 12 ->
  m = 1 \/ m = 2 \/ m = 3 \/ m = 4 \/ m = 5 \/ m = 6
  \/ m = 7 \/ m = 8 \/ m = 9 \/ m = 10 \/ m = 11 \/ m = 12.
Proof. lia. Qed.

(** A day of a month is a day of the year that begins in March; only
    a 29th of February is its 366th day. *)
Lemma day_of_year_range (y m d : Z) :
  1 <= m <= 12 -> 1 <= d <= DaysInMonth y m ->
  0 <= day_of_year m d
  /\ day_of_year m d < (if InLeapYear y then 366 else 365)
  /\ (m <= 2 \/ day_of_year m d < 306).
Proof.
  intros Hm Hd. unfold DaysInMonth in Hd. unfold day_of_year.
  destruct (twelve_months m Hm) as
    [->|[->|[->|[->|[->|[->|[->|[->|[->|[->|[->| ->]]]]]]]]]]];
    fix_month Hd; destruct (InLeapYear y);
    Z.div_mod_to_equations; lia.
Qed.

Lemma day_in_year_of (y m d : Z) :
  1 <= m <= 12 -> 1 <= d <= DaysInMonth y m ->
  day_in_year (day_of_year m d) = d.
Proof.
  intros Hm Hd. unfold DaysInMonth in Hd. unfold day_in_year, day_of_year.
  destruct (twelve_months m Hm) as
    [->|[->|[->|[->|[->|[->|[->|[->|[->|[->|[->| ->]]]]]]]]]]];
    fix_month Hd; destruct (InLeapYear y);
    Z.div_mod_to_equations; lia.
Qed.

End Era.

Lemma InLeapYear_era (k r : Z) : InLeapYear (k * 400 + r) = InLeapYear r.
Proof.
  unfold InLeapYear.
  replace ((k * 400 + r) mod 4)%Z with (r mod 4)%Z
    by (replace (k * 400 + r)%Z with (r + (k * 100) * 4)%Z by lia;
        symmetry; apply Z.mod_add; lia).
  replace ((k * 400 + r) mod 100)%Z with (r mod 100)%Z
    by (replace (k * 400 + r)%Z with (r + (k * 4) * 100)%Z by lia;
        symmetry; apply Z.mod_add; lia).
  replace ((k * 400 + r) mod 400)%Z with (r mod 400)%Z
    by (replace (k * 400 + r)%Z with (r + k * 400)%Z by lia;
        symmetry; apply Z.mod_add; lia).
  reflexivity.
Qed.

(** [day_of_month] inverts [days_from_civil] on every date of the
    proleptic Gregorian calendar. *)
Lemma day_of_month_from_civil (y m d : Z) :
  (1 <= m <= 12)%Z -> (1 <= d <= DaysInMonth y m)%Z ->
  day_of_month (days_from_civil y m d) = d.
Proof.
  intros Hm Hd.
  destruct (day_of_year_range y m d Hm Hd) as (Hdoy0 & Hdoy1 & Hdoy2).
  unfold days_from_civil.
  set (y' := if (m <=? 2)%Z then (y - 1)%Z else y).
  set (era := (y' / 400)%Z). set (yoe := (y' - era * 400)%Z).
  assert (Hyoe : (0 <= yoe < 400)%Z).
  { unfold yoe, era. pose proof (Z.div_mod y' 400 ltac:(lia)).
    pose proof (Z.mod_pos_bound y' 400 ltac:(lia)). lia. }
  destruct (year_length yoe Hyoe) as (Hs0 & Hs1 & Hlen).
  set (doe := (year_start yoe + day_of_year m d)%Z).
  assert (Hin : (year_start yoe <= doe < next_start yoe)%Z).
  { unfold doe. split; [lia|].
    destruct (m <=? 2)%Z eqn:Em.
    - assert (E : InLeapYear (yoe + 1) = InLeapYear y).
      { rewrite <- (InLeapYear_era era). f_equal. unfold yoe, y'. lia. }
      rewrite E in Hlen. destruct (InLeapYear y); lia.
    - apply Z.leb_gt in Em. destruct (InLeapYear (yoe + 1)); lia. }
  unfold day_of_month.
  replace (era * 146097 + doe - 719468 + 719468)%Z
    with (doe + era * 146097)%Z by lia.
  rewrite Z.div_add by lia. rewrite (Z.div_small doe 146097) by lia.
  replace (doe + era * 146097 - (0 + era) * 146097)%Z with doe by lia.
  unfold day_in_era. rewrite (year_of_era_found yoe doe Hyoe Hin).
  replace (doe - year_start yoe)%Z with (day_of_year m d) by (unfold doe; lia).
  apply (day_in_year_of y); assumption.
Qed.

(** Every instant of the civil day [y]-[m]-[d] has [d] as its day of
    the month. *)
Lemma DateFromTime_civil (y m d ms : Z) :
  (1 <= m <= 12)%Z -> (1 <= d <= DaysInMonth y m)%Z ->
  (0 <= ms < msPerDay)%Z ->
  DateFromTime (days_from_civil y m d * msPerDay + ms) = d.
Proof.
  intros Hm Hd Hms. unfold DateFromTime, Day.
  replace (days_from_civil y m d * msPerDay + ms)%Z
    with (ms + days_from_civil y m d * msPerDay)%Z by lia.
  unfold msPerDay in *. rewrite Z.div_add by lia.
  rewrite (Z.div_small ms) by lia.
  apply day_of_month_from_civil; assumption.
Qed.

(** *** Known dates *)

Example epoch_is_the_first : DateFromTime 0 = 1%Z.
Proof. reflexivity. Qed.

Example before_epoch_is_the_last : DateFromTime (-1) = 31%Z.
Proof. reflexivity. Qed.

Example leap_day_2024 : DateFromTime 1709208000000 = 29%Z.
Proof. reflexivity. Qed.

Example leap_day_2000 : DateFromTime 951782400000 = 29%Z.
Proof. reflexivity. Qed.

Example no_leap_day_2100 :
  DateFromTime (4107542400000 - 1) = 28%Z /\ DateFromTime 4107542400000 = 1%Z.
Proof. split; reflexivity. Qed.

Example new_year_1900 : DateFromTime (-2208988800000) = 1%Z.
Proof. reflexivity. Qed.

(* ================================================================== *)
(** ** Properties of the routes *)

Ltac run :=
  unfold post_meal, put_meal, get_meals, get_meal, delete_meal, get_metrics,
    knex_insert, knex_where_id_first, knex_where_id_update,
    knex_where_id_delete, knex_where_user_orderBy_date_desc,
    knex_where_user_diet_count, randomUUID, send, parse, paramsSchema,
    query, table, bind, ret, throw;
  simpl.

Section Properties.

Context {RT : Runtime} {EN : Engine}.

Local Open Scope string_scope.
Local Open Scope list_scope.


Lemma in_owned (u : string) (t : list Meal) (m : Meal) :
  In m (owned u t) <-> In m t /\ user_id m = u.
Proof.
  unfold owned, owned_by. rewrite filter_In, String.eqb_eq. reflexivity.
Qed.

(** C1. [GET /metrics] answers 200 with [bestOnDietSequence] equal to
    the largest running count of the scan of the acting user's meals in
    descending date order (the count goes up by one on an on-diet meal
    and back to zero on an off-diet meal). When the flags in scan order
    are true, true, false, true, true, true the answer is 3; when the
    user has no meal it is 0. *)
Theorem metrics_bestOnDietSequence (request : Request) (w : World) :
  let scanned := order_by_date_desc (owned (uid (user request)) (meals w)) in
  exists m w',
    get_metrics request w
      = (Returned {| status := 200; payload := MetricsBody m |}, w')
    /\ Permutation scanned (owned (uid (user request)) (meals w))
    /\ StronglySorted date_desc scanned
    /\ bestOnDietSequence m = spec_bestOnDietSequence (map is_on_diet scanned)
    /\ (map is_on_diet scanned = [true; true; false; true; true; true] ->
        bestOnDietSequence m = 3)
    /\ (owned (uid (user request)) (meals w) = [] -> bestOnDietSequence m = 0).
Proof.
  intro scanned. run. eexists. eexists. split; [reflexivity|]. simpl.
  assert (Hbest : Acc.bestOnDietSequence (reduce_sequence scanned)
                  = spec_bestOnDietSequence (map is_on_diet scanned)).
  { unfold reduce_sequence. rewrite fold_reducer_best. reflexivity. }
  fold (owned (uid (user request)) (meals w)). fold scanned.
  split; [apply order_by_perm|].
  split; [apply order_by_sorted|].
  split; [exact Hbest|].
  split.
  - intro Hflags. rewrite Hbest, Hflags. reflexivity.
  - intro Hnone. rewrite Hbest.
    assert (E : scanned = []).
    { apply Permutation_nil. apply Permutation_sym.
      unfold scanned. rewrite Hnone. apply order_by_perm. }
    rewrite E. reflexivity.
Qed.

(** C9. In the answer of [GET /metrics] on a fixed table,
    0 <= bestOnDietSequence <= totalMealsOnDiet <= totalMeals and
    totalMeals = totalMealsOnDiet + totalMealsOffDiet; the table is left
    as it was. *)
Theorem metrics_counts_ordered (request : Request) (w : World) :
  exists m w',
    get_metrics request w
      = (Returned {| status := 200; payload := MetricsBody m |}, w')
    /\ meals w' = meals w
    /\ 0 <= bestOnDietSequence m
    /\ bestOnDietSequence m <= totalMealsOnDiet m
    /\ totalMealsOnDiet m <= totalMeals m
    /\ totalMeals m = totalMealsOnDiet m + totalMealsOffDiet m.
Proof.
  run. eexists. eexists. split; [reflexivity|]. simpl.
  set (u := uid (user request)). set (t := meals w).
  fold (owned u t).
  pose proof (order_by_perm (owned u t)) as Hp.
  rewrite !count_owned_diet. fold (owned u t).
  rewrite (Permutation_length Hp).
  pose proof (diet_partition (owned u t)) as Hpart.
  split; [reflexivity|]. split; [lia|]. split; [|split; lia].
  destruct (fold_reducer_bound (order_by_date_desc (owned u t))
              {| Acc.bestOnDietSequence := 0; Acc.currentSequence := 0 |})
    as [_ Hb].
  simpl in Hb. unfold reduce_sequence.
  unfold on_diet_count in Hb.
  rewrite (filter_length_perm is_on_diet _ _ Hp) in Hb.
  rewrite on_diet_is_true. lia.
Qed.

(** C7. [GET /] answers 200 with exactly the rows whose [user_id] is
    the acting user's id (each as often as the table holds it, and no
    row of another user), most recent first: the dates never increase
    along the list. The table is left as it was. *)
Theorem list_owned_sorted (request : Request) (w : World) :
  exists ms w',
    get_meals request w
      = (Returned {| status := 200; payload := MealsBody ms |}, w')
    /\ meals w' = meals w
    /\ Permutation ms (owned (uid (user request)) (meals w))
    /\ (forall m, In m ms <-> In m (meals w) /\ user_id m = uid (user request))
    /\ StronglySorted date_desc ms
    /\ Sorted date_desc ms.
Proof.
  run. eexists. eexists. split; [reflexivity|]. simpl.
  fold (owned (uid (user request)) (meals w)).
  pose proof (order_by_perm (owned (uid (user request)) (meals w))) as Hp.
  pose proof (order_by_sorted (owned (uid (user request)) (meals w))) as Hs.
  split; [reflexivity|]. split; [exact Hp|]. split; [|split; [exact Hs|]].
  - intro m. rewrite <- in_owned. split; intro Hin.
    + apply (Permutation_in _ Hp), Hin.
    + apply (Permutation_in _ (Permutation_sym Hp)), Hin.
  - apply StronglySorted_Sorted, Hs.
Qed.


(** C10. When the [id] parameter is not a UUID, [GET /:id] and
    [DELETE /:id] throw the validation error of the parameter schema
    and stop there: no query has been sent to the store, the world is
    the one they started in, and the error is surfaced as HTTP 400, not
    as a 404. *)
Theorem malformed_id_rejected (request : Request) (w : World) :
  is_uuid (params_id request) = false ->
  get_meal request w = (Threw (ZodError ["id"]), w)
  /\ delete_meal request w = (Threw (ZodError ["id"]), w)
  /\ issued (snd (get_meal request w)) = issued w
  /\ issued (snd (delete_meal request w)) = issued w
  /\ surfaced_status (fst (get_meal request w)) = 400
  /\ surfaced_status (fst (delete_meal request w)) = 400.
Proof.
  intro Hu. run. rewrite Hu. simpl. repeat split.
Qed.

(** C5. When the [id] parameter is a UUID that no row of the table
    carries, [PUT /:id] answers 404 with [{ message: "Meal not found" }],
    [GET /:id] and [DELETE /:id] answer 404 with
    [{ error: "Meal not found" }], and the table is left as it was: the
    only query sent is the lookup. *)
Theorem unknown_id_not_found (request : Request) (w : World) :
  is_uuid (params_id request) = true ->
  (forall r, In r (meals w) -> id r <> params_id request) ->
  put_meal request w
    = (Returned {| status := 404; payload := MessageBody "Meal not found" |},
       looked_up (params_id request) w)
  /\ get_meal request w
    = (Returned {| status := 404; payload := ErrorBody "Meal not found" |},
       looked_up (params_id request) w)
  /\ delete_meal request w
    = (Returned {| status := 404; payload := ErrorBody "Meal not found" |},
       looked_up (params_id request) w)
  /\ meals (looked_up (params_id request) w) = meals w.
Proof.
  intros Hu Habs. apply find_absent in Habs.
  run. rewrite Hu. simpl. rewrite Habs. repeat split.
Qed.

(** C6. When the [id] parameter is the id of a row of the table,
    [DELETE /:id] answers 204 without a body and leaves the table
    without the rows of that id and with every other row, in the same
    order; with unique ids that is the table minus the one row. A
    [GET /:id] for that id afterwards answers 404. *)
Theorem delete_removes_row (request : Request) (w : World) (m : Meal) :
  is_uuid (params_id request) = true ->
  In m (meals w) ->
  id m = params_id request ->
  exists w',
    delete_meal request w
      = (Returned {| status := 204; payload := NoBody |}, w')
    /\ meals w'
       = filter (fun r => negb (has_id (params_id request) r)) (meals w)
    /\ (forall r, In r (meals w') <-> In r (meals w) /\ id r <> params_id request)
    /\ (unique_ids (meals w) ->
        exists l1 l2, meals w = l1 ++ m :: l2 /\ meals w' = l1 ++ l2)
    /\ (forall request',
          params_id request' = params_id request ->
          get_meal request' w'
          = (Returned {| status := 404; payload := ErrorBody "Meal not found" |},
             looked_up (params_id request) w')).
Proof.
  intros Hu Hin Hid.
  destruct (find_present _ _ _ Hin Hid) as [m' Hm'].
  run. rewrite Hu. simpl. rewrite Hm'. simpl.
  eexists. split; [reflexivity|]. simpl.
  split; [reflexivity|].
  split; [intro r; apply in_filter_other|].
  split.
  - intro Hnd.
    destruct (unique_split _ _ _ Hnd Hin Hid) as (l1 & l2 & E & _ & H1 & H2).
    exists l1, l2. split; [exact E|].
    rewrite E. apply delete_unique; assumption.
  - intros request' E. rewrite E, Hu. simpl.
    rewrite find_absent; [reflexivity|].
    intros r Hr. apply in_filter_other in Hr. tauto.
Qed.

(** *** The update route on a row that exists *)

Lemma edit_schema_fields (raw : Body.t) (b : EditMealBody.t) :
  editMealBodySchema (Some raw) = inr b ->
  z_optional z_string (Body.name raw) = Some (EditMealBody.name b)
  /\ z_optional z_string (Body.description raw) = Some (EditMealBody.description b)
  /\ z_optional z_boolean (Body.isOnDiet raw) = Some (EditMealBody.isOnDiet b)
  /\ z_optional z_coerce_date (Body.date raw) = Some (EditMealBody.date b).
Proof.
  unfold editMealBodySchema.
  destruct (z_optional z_string (Body.name raw)) as [n|];
    destruct (z_optional z_string (Body.description raw)) as [d|];
    destruct (z_optional z_boolean (Body.isOnDiet raw)) as [f|];
    destruct (z_optional z_coerce_date (Body.date raw)) as [t|];
    simpl; try discriminate.
  intros [= <-]. simpl. repeat split.
Qed.

Lemma z_optional_supplied {A} (p : option json -> option A) (v : json) (o : option A) :
  z_optional p (Some v) = Some o -> exists a, p (Some v) = Some a /\ o = Some a.
Proof.
  simpl. destruct (p (Some v)) as [a|]; simpl; [|discriminate].
  intros [= <-]. eauto.
Qed.

Lemma z_optional_omitted {A} (p : option json -> option A) (o : option A) :
  z_optional p None = Some o -> o = None.
Proof. simpl. congruence. Qed.


Lemma put_meal_found (request : Request) (w : World) (meal : Meal)
      (b : EditMealBody.t) :
  is_uuid (params_id request) = true ->
  find (has_id (params_id request)) (meals w) = Some meal ->
  editMealBodySchema (body request) = inr b ->
  exists w',
    put_meal request w = (Returned {| status := 201; payload := NoBody |}, w')
    /\ meals w'
       = map (fun m => if has_id (params_id request) m then edited b meal m else m)
             (meals w).
Proof.
  intros Hu Hf Hb. run. rewrite Hu. simpl. rewrite Hf. rewrite Hb. simpl.
  eexists. split; reflexivity.
Qed.

(** A body that fails the schema stops the update after the lookup:
    nothing is written. *)
Lemma put_meal_invalid_body (request : Request) (w : World) (meal : Meal)
      (issues : list string) :
  is_uuid (params_id request) = true ->
  find (has_id (params_id request)) (meals w) = Some meal ->
  editMealBodySchema (body request) = inl issues ->
  put_meal request w
  = (Threw (ZodError issues), looked_up (params_id request) w).
Proof.
  intros Hu Hf Hb. run. rewrite Hu. simpl. rewrite Hf. rewrite Hb. reflexivity.
Qed.

Lemma put_meal_unique (request : Request) (w : World) (meal : Meal)
      (b : EditMealBody.t) :
  is_uuid (params_id request) = true ->
  unique_ids (meals w) ->
  In meal (meals w) ->
  id meal = params_id request ->
  editMealBodySchema (body request) = inr b ->
  exists w' l1 l2,
    put_meal request w = (Returned {| status := 201; payload := NoBody |}, w')
    /\ meals w = l1 ++ meal :: l2
    /\ meals w' = l1 ++ edited b meal meal :: l2.
Proof.
  intros Hu Hnd Hin Hid Hb.
  destruct (unique_split _ _ _ Hnd Hin Hid) as (l1 & l2 & E & Hf & H1 & H2).
  destruct (put_meal_found _ _ _ _ Hu Hf Hb) as (w' & Hput & Hw').
  exists w', l1, l2. split; [exact Hput|]. split; [exact E|].
  rewrite Hw', E. apply update_unique; assumption.
Qed.

(** C3. [PUT /:id] on the id of a row of a table with unique ids, with
    a body that passes the schema, answers 201 without a body and
    changes that row only: the rows before and after it are the same,
    the row keeps its [id] and [user_id], every column whose key is
    absent from the body keeps its value, and a body without any of the
    four keys leaves the whole table as it was. *)
Theorem update_keeps_omitted (request : Request) (w : World) (meal : Meal)
        (raw : Body.t) (b : EditMealBody.t) :
  is_uuid (params_id request) = true ->
  unique_ids (meals w) ->
  In meal (meals w) ->
  id meal = params_id request ->
  body request = Some raw ->
  editMealBodySchema (Some raw) = inr b ->
  exists meal' w' l1 l2,
    put_meal request w = (Returned {| status := 201; payload := NoBody |}, w')
    /\ meals w = l1 ++ meal :: l2
    /\ meals w' = l1 ++ meal' :: l2
    /\ id meal' = id meal
    /\ user_id meal' = user_id meal
    /\ (Body.name raw = None -> name meal' = name meal)
    /\ (Body.description raw = None -> description meal' = description meal)
    /\ (Body.isOnDiet raw = None -> is_on_diet meal' = is_on_diet meal)
    /\ (Body.date raw = None -> date meal' = date meal)
    /\ (forall n, Body.name raw = Some (JStr n) -> name meal' = n)
    /\ (forall d, Body.description raw = Some (JStr d) -> description meal' = d)
    /\ (forall f, Body.isOnDiet raw = Some (JBool f) -> is_on_diet meal' = f)
    /\ (raw = {| Body.name := None; Body.description := None;
                 Body.isOnDiet := None; Body.date := None |} ->
        meal' = meal /\ meals w' = meals w).
Proof.
  intros Hu Hnd Hin Hid Hbody Hb. rewrite <- Hbody in Hb.
  destruct (put_meal_unique _ _ _ _ Hu Hnd Hin Hid Hb) as (w' & l1 & l2 & Hput & E & E').
  rewrite Hbody in Hb. destruct (edit_schema_fields _ _ Hb) as (Hn & Hd & Hf & Ht).
  exists (edited b meal meal), w', l1, l2.
  split; [exact Hput|]. split; [exact E|]. split; [exact E'|].
  split; [reflexivity|]. split; [reflexivity|].
  unfold edited. simpl.
  split; [intro H; rewrite H in Hn; apply z_optional_omitted in Hn;
          rewrite Hn; reflexivity|].
  split; [intro H; rewrite H in Hd; apply z_optional_omitted in Hd;
          rewrite Hd; reflexivity|].
  split; [intro H; rewrite H in Hf; apply z_optional_omitted in Hf;
          rewrite Hf; reflexivity|].
  split; [intro H; rewrite H in Ht; apply z_optional_omitted in Ht;
          rewrite Ht; reflexivity|].
  split; [intros n H; rewrite H in Hn; simpl in Hn; injection Hn as <-;
          reflexivity|].
  split; [intros d H; rewrite H in Hd; simpl in Hd; injection Hd as <-;
          reflexivity|].
  split; [intros f H; rewrite H in Hf; simpl in Hf; injection Hf as <-;
          reflexivity|].
  intro H. rewrite H in Hn, Hd, Hf, Ht. simpl in Hn, Hd, Hf, Ht.
  clear Hb Hput. unfold edited, set_columns in E'.
  injection Hn as Hn. injection Hd as Hd. injection Hf as Hf. injection Ht as Ht.
  rewrite <- Hn, <- Hd, <- Hf, <- Ht in *. simpl in *.
  destruct meal; simpl in *. split; [reflexivity | congruence].
Qed.

(** C2. [PUT /:id] on the id of a row of a table with unique ids, with
    a body that passes the schema: when the body has a [date], the
    [date] column of the row becomes the day of the month of that date
    in local time, a number from 1 to 31, which is not the time value of
    the date unless that time value is itself between 1 and 31; when
    the body has no [date], the column keeps its value. *)
Theorem update_date_is_day_of_month (request : Request) (w : World)
        (meal : Meal) (raw : Body.t) (b : EditMealBody.t) :
  is_uuid (params_id request) = true ->
  unique_ids (meals w) ->
  In meal (meals w) ->
  id meal = params_id request ->
  body request = Some raw ->
  editMealBodySchema (Some raw) = inr b ->
  exists meal' w' l1 l2,
    put_meal request w = (Returned {| status := 201; payload := NoBody |}, w')
    /\ meals w = l1 ++ meal :: l2
    /\ meals w' = l1 ++ meal' :: l2
    /\ (forall v, Body.date raw = Some v ->
          exists t,
            new_Date (Some v) = Some t
            /\ date meal' = DateFromTime (t + LocalTZA t)
            /\ (1 <= date meal' <= 31)%Z
            /\ ((t < 1 \/ 31 < t)%Z -> date meal' <> getTime t))
    /\ (Body.date raw = None -> date meal' = date meal).
Proof.
  intros Hu Hnd Hin Hid Hbody Hb. rewrite <- Hbody in Hb.
  destruct (put_meal_unique _ _ _ _ Hu Hnd Hin Hid Hb) as (w' & l1 & l2 & Hput & E & E').
  rewrite Hbody in Hb. destruct (edit_schema_fields _ _ Hb) as (_ & _ & _ & Ht).
  exists (edited b meal meal), w', l1, l2.
  split; [exact Hput|]. split; [exact E|]. split; [exact E'|].
  unfold edited. simpl. split.
  - intros v Hv. rewrite Hv in Ht.
    apply z_optional_supplied in Ht. destruct Ht as (t & Hnew & ->).
    exists t. split; [exact Hnew|]. simpl.
    pose proof (day_of_month_range (Day (t + LocalTZA t))) as Hr.
    unfold getDate, DateFromTime, getTime.
    split; [reflexivity|]. split; [exact Hr|]. lia.
  - intro H. rewrite H in Ht. apply z_optional_omitted in Ht.
    rewrite Ht. reflexivity.
Qed.

(** C4. [GET /:id], [PUT /:id] and [DELETE /:id] never read
    [request.user]: two requests with the same [id] parameter and the
    same body get the same reply and leave the same world, whoever the
    acting users are. So the row found under the id is read, rewritten
    or removed for any acting user, its owner or not. *)
Theorem by_id_routes_ignore_user (request1 request2 : Request) (w : World) :
  params_id request1 = params_id request2 ->
  body request1 = body request2 ->
  get_meal request1 w = get_meal request2 w
  /\ put_meal request1 w = put_meal request2 w
  /\ delete_meal request1 w = delete_meal request2 w
  /\ (forall m,
        is_uuid (params_id request1) = true ->
        find (has_id (params_id request1)) (meals w) = Some m ->
        (exists w',
            get_meal request2 w
            = (Returned {| status := 200; payload := MealBody m |}, w'))
        /\ (exists w',
            delete_meal request2 w
            = (Returned {| status := 204; payload := NoBody |}, w')
            /\ forall r, In r (meals w') -> id r <> id m)
        /\ (forall b,
            editMealBodySchema (body request2) = inr b ->
            exists w',
              put_meal request2 w
              = (Returned {| status := 201; payload := NoBody |}, w')
              /\ meals w'
                 = map (fun r => if has_id (id m) r then edited b m r else r)
                       (meals w))).
Proof.
  intros Hp Hb.
  split; [unfold get_meal; rewrite Hp; reflexivity|].
  split; [unfold put_meal; rewrite Hp, Hb; reflexivity|].
  split; [unfold delete_meal; rewrite Hp; reflexivity|].
  intros m Hu Hf. rewrite Hp in Hu, Hf.
  assert (Hid : id m = params_id request2).
  { apply find_some in Hf. apply has_id_true, Hf. }
  split; [|split].
  - run. rewrite Hu. simpl. rewrite Hf. simpl. eexists. reflexivity.
  - run. rewrite Hu. simpl. rewrite Hf. simpl. eexists.
    split; [reflexivity|]. simpl.
    intros r Hr. apply in_filter_other in Hr. rewrite Hid. tauto.
  - intros b Hbody. rewrite Hid. apply put_meal_found; assumption.
Qed.

Lemma put_meal_malformed_id (request : Request) (w : World) :
  is_uuid (params_id request) = false ->
  put_meal request w = (Threw (ZodError ["id"]), w).
Proof. intro Hu. run. rewrite Hu. reflexivity. Qed.

(** The day of the month that is stored depends on the zone of the
    host: one instant, two days. *)
Example getDate_by_zone :
  @new_Date Host.utc (Some (JStr "2024-02-29")) = Some 1709164800000%Z
  /\ @getDate Host.utc 1709164800000 = 29%Z
  /\ @getDate Host.brt 1709164800000 = 28%Z.
Proof. repeat split. Qed.

(** *** Creation *)

(** The bodies that pass the schema of [POST /] are those with two
    strings, a boolean and a [date] that [new Date] turns into a valid
    date. *)
Lemma create_schema_valid (raw : option Body.t) (b : CreateMealBody.t) :
  createMealBodySchema raw = inr b ->
  exists dj,
    raw = Some {| Body.name := Some (JStr (CreateMealBody.name b));
                  Body.description := Some (JStr (CreateMealBody.description b));
                  Body.isOnDiet := Some (JBool (CreateMealBody.isOnDiet b));
                  Body.date := Some dj |}
    /\ new_Date (Some dj) = Some (CreateMealBody.date b).
Proof.
  destruct raw as [[n d f t]|]; simpl; [|discriminate].
  destruct n as [[| | |n|]|]; simpl; try discriminate;
    destruct d as [[| | |d|]|]; simpl; try discriminate;
    destruct f as [[|f| | |]|]; simpl; try discriminate;
    (destruct t as [dj|]; [|simpl; discriminate]);
    unfold z_coerce_date; destruct (new_Date (Some dj)) as [tv|] eqn:E;
    try discriminate.
  intros [= <-]. simpl. exists dj. split; [reflexivity | exact E].
Qed.



(** *** Unique ids are an invariant of the routes *)

Lemma NoDup_ids_filter (p : Meal -> bool) (t : list Meal) :
  NoDup (map id t) -> NoDup (map id (filter p t)).
Proof.
  induction t as [|a t IH]; simpl; intro Hnd; [constructor|].
  inversion Hnd as [|? ? Hna Hnd']; subst.
  destruct (p a); simpl; [|auto].
  constructor; [|auto].
  intro Hin. apply Hna. apply in_map_iff in Hin.
  destruct Hin as (r & Hr & Hin). apply filter_In in Hin.
  rewrite <- Hr. apply in_map, Hin.
Qed.

Lemma put_meal_keeps_ids (request : Request) (w : World) :
  map id (meals (snd (put_meal request w))) = map id (meals w).
Proof.
  run. destruct (is_uuid (params_id request)); simpl; [|reflexivity].
  destruct (find (has_id (params_id request)) (meals w)); simpl; [|reflexivity].
  destruct (editMealBodySchema (body request)); simpl; [reflexivity|].
  rewrite map_map. apply map_ext. intro a.
  destruct (has_id (params_id request) a); reflexivity.
Qed.

Lemma delete_meal_keeps_unique (request : Request) (w : World) :
  unique_ids (meals w) ->
  unique_ids (meals (snd (delete_meal request w))).
Proof.
  intro Hnd. unfold unique_ids in *. run.
  destruct (is_uuid (params_id request)); simpl; [|exact Hnd].
  destruct (find (has_id (params_id request)) (meals w)); simpl; [|exact Hnd].
  apply NoDup_ids_filter, Hnd.
Qed.

Lemma post_meal_keeps_unique (request : Request) (w : World) :
  unique_ids (meals w) ->
  (forall r, In r (meals w) -> id r <> uuid_source (uuid_tick w)) ->
  unique_ids (meals (snd (post_meal request w))).
Proof.
  intros Hnd Hfresh. unfold unique_ids in *. run.
  destruct (createMealBodySchema (body request)); simpl; [exact Hnd|].
  rewrite map_app. simpl.
  apply (Permutation_NoDup (l := uuid_source (uuid_tick w) :: map id (meals w))).
  - apply Permutation_cons_append.
  - constructor; [|exact Hnd].
    intro Hin. apply in_map_iff in Hin. destruct Hin as (r & Hr & Hin).
    exact (Hfresh r Hin Hr).
Qed.

Lemma reads_keep_table (request : Request) (w : World) :
  meals (snd (get_meal request w)) = meals w
  /\ meals (snd (get_meals request w)) = meals w
  /\ meals (snd (get_metrics request w)) = meals w.
Proof.
  run. repeat split.
  destruct (is_uuid (params_id request)); simpl; [|reflexivity].
  destruct (find (has_id (params_id request)) (meals w)); reflexivity.
Qed.

End Properties.


(* ================================================================== *)
(** ** Further properties of the routes *)

Section Further.

Context {RT : Runtime} {EN : Engine}.

Local Open Scope string_scope.
Local Open Scope list_scope.

(** *** What the routes answer, as functions of the table *)

Lemma get_meals_reply (request : Request) (w : World) :
  fst (get_meals request w)
  = Returned {| status := 200;
                payload := MealsBody
                  (order_by_date_desc (owned (uid (user request)) (meals w))) |}.
Proof. reflexivity. Qed.

Lemma get_metrics_reply (request : Request) (w : World) :
  fst (get_metrics request w)
  = Returned
      {| status := 200;
         payload := MetricsBody
           {| totalMeals :=
                List.length (order_by_date_desc (owned (uid (user request)) (meals w)));
              totalMealsOnDiet :=
                List.length (filter (on_diet_is true)
                                    (owned (uid (user request)) (meals w)));
              totalMealsOffDiet :=
                List.length (filter (on_diet_is false)
                                    (owned (uid (user request)) (meals w)));
              bestOnDietSequence :=
                Acc.bestOnDietSequence
                  (reduce_sequence
                     (order_by_date_desc (owned (uid (user request)) (meals w)))) |} |}.
Proof.
  run. unfold owned. rewrite <- !count_owned_diet. reflexivity.
Qed.

Lemma get_meal_reply (request : Request) (w : World) :
  is_uuid (params_id request) = true ->
  fst (get_meal request w)
  = match find (has_id (params_id request)) (meals w) with
    | Some meal => Returned {| status := 200; payload := MealBody meal |}
    | None => Returned {| status := 404; payload := ErrorBody "Meal not found" |}
    end.
Proof.
  intro Hu. run. rewrite Hu. simpl.
  destruct (find (has_id (params_id request)) (meals w)); reflexivity.
Qed.

Lemma post_meal_parsed (request : Request) (w : World) (b : CreateMealBody.t) :
  createMealBodySchema (body request) = inr b ->
  post_meal request w
  = (Returned {| status := 201; payload := NoBody |},
     {| meals := meals w ++ [created request w b];
        issued := issued w ++ [Insert (created request w b)];
        uuid_tick := S (uuid_tick w) |}).
Proof. intro Hb. unfold post_meal. rewrite Hb. reflexivity. Qed.

Lemma post_meal_refused (request : Request) (w : World) (issues : list string) :
  createMealBodySchema (body request) = inl issues ->
  post_meal request w = (Threw (ZodError issues), w).
Proof. intro Hb. unfold post_meal. rewrite Hb. reflexivity. Qed.

Lemma put_meal_not_found (request : Request) (w : World) :
  is_uuid (params_id request) = true ->
  find (has_id (params_id request)) (meals w) = None ->
  put_meal request w
  = (Returned {| status := 404; payload := MessageBody "Meal not found" |},
     looked_up (params_id request) w).
Proof. intros Hu Hf. run. rewrite Hu. simpl. rewrite Hf. reflexivity. Qed.

Lemma put_meal_written (request : Request) (w : World) (meal : Meal)
      (b : EditMealBody.t) :
  is_uuid (params_id request) = true ->
  find (has_id (params_id request)) (meals w) = Some meal ->
  editMealBodySchema (body request) = inr b ->
  fst (put_meal request w) = Returned {| status := 201; payload := NoBody |}
  /\ meals (snd (put_meal request w))
     = map (rewrite_id (params_id request) (edited b meal)) (meals w).
Proof.
  intros Hu Hf Hb.
  destruct (put_meal_found _ _ _ _ Hu Hf Hb) as (w' & Hp & Hm).
  rewrite Hp. simpl. split; [reflexivity | exact Hm].
Qed.

Lemma delete_meal_found (request : Request) (w : World) (m : Meal) :
  is_uuid (params_id request) = true ->
  find (has_id (params_id request)) (meals w) = Some m ->
  fst (delete_meal request w) = Returned {| status := 204; payload := NoBody |}
  /\ meals (snd (delete_meal request w))
     = filter (other_id (params_id request)) (meals w).
Proof.
  intros Hu Hf. run. rewrite Hu. simpl. rewrite Hf. split; reflexivity.
Qed.

Lemma delete_meal_not_found (request : Request) (w : World) :
  is_uuid (params_id request) = true ->
  find (has_id (params_id request)) (meals w) = None ->
  delete_meal request w
  = (Returned {| status := 404; payload := ErrorBody "Meal not found" |},
     looked_up (params_id request) w).
Proof. intros Hu Hf. run. rewrite Hu. simpl. rewrite Hf. reflexivity. Qed.

Lemma delete_meal_malformed_id (request : Request) (w : World) :
  is_uuid (params_id request) = false ->
  delete_meal request w = (Threw (ZodError ["id"]), w).
Proof. intro Hu. run. rewrite Hu. reflexivity. Qed.

(** *** Creation: what is accepted and what a refusal leaves *)

Lemma create_schema_issues (raw : option Body.t) (issues : list string) :
  createMealBodySchema raw = inl issues -> issues <> [].
Proof.
  destruct raw as [raw|]; simpl; [|intros [= <-]; discriminate].
  destruct (z_string (Body.name raw)), (z_string (Body.description raw)),
    (z_boolean (Body.isOnDiet raw)), (z_coerce_date (Body.date raw));
    simpl; intros [= <-]; discriminate.
Qed.

(** X1. [POST /] either parses its body, draws one UUID, sends one
    insert that appends one row and answers 201, or throws the
    validation error of the body with at least one issue and leaves
    the world as it was: no query sent, no UUID drawn. *)
Theorem post_meal_outcome (request : Request) (w : World) :
  (exists b,
      createMealBodySchema (body request) = inr b
      /\ post_meal request w
         = (Returned {| status := 201; payload := NoBody |},
            {| meals := meals w ++ [created request w b];
               issued := issued w ++ [Insert (created request w b)];
               uuid_tick := S (uuid_tick w) |}))
  \/ (exists issues,
         issues <> []
         /\ post_meal request w = (Threw (ZodError issues), w)).
Proof.
  destruct (createMealBodySchema (body request)) as [issues|b] eqn:Hb.
  - right. exists issues. split.
    + exact (create_schema_issues _ _ Hb).
    + apply post_meal_refused, Hb.
  - left. exists b. split; [reflexivity | apply post_meal_parsed, Hb].
Qed.

(** X2. [POST /] answers 201 exactly for the bodies that are objects
    with a string [name], a string [description], a boolean [isOnDiet]
    and a [date] that [new Date] turns into a valid date. *)
Theorem post_meal_accepts_iff (request : Request) (w : World) :
  (exists w',
      post_meal request w = (Returned {| status := 201; payload := NoBody |}, w'))
  <-> (exists n d f dj t,
          body request
          = Some {| Body.name := Some (JStr n);
                    Body.description := Some (JStr d);
                    Body.isOnDiet := Some (JBool f);
                    Body.date := Some dj |}
          /\ new_Date (Some dj) = Some t).
Proof.
  split.
  - intros [w' Hrun].
    destruct (createMealBodySchema (body request)) as [issues|b] eqn:Hb.
    + rewrite (post_meal_refused _ _ _ Hb) in Hrun. discriminate.
    + destruct (create_schema_valid _ _ Hb) as (dj & Hbody & Hdate).
      exists (CreateMealBody.name b), (CreateMealBody.description b),
        (CreateMealBody.isOnDiet b), dj, (CreateMealBody.date b).
      split; assumption.
  - intros (n & d & f & dj & t & Hbody & Hdate).
    eexists. apply post_meal_parsed with
      (b := {| CreateMealBody.name := n; CreateMealBody.description := d;
               CreateMealBody.isOnDiet := f; CreateMealBody.date := t |}).
    rewrite Hbody. unfold createMealBodySchema, z_coerce_date.
    cbn [Body.name Body.description Body.isOnDiet Body.date z_string z_boolean].
    rewrite Hdate. reflexivity.
Qed.

(** X3. A [date] that is not a string goes through [ToNumber]: with the
    other three keys well typed, [POST /] stores 0 for [null], 1 for
    [true], 0 for [false] and a number as it is when it is within
    8.64e15 of zero; a number further away is refused with the issue
    [date] and nothing is stored. *)
Theorem post_meal_date_coercion (request : Request) (w : World)
        (n d : string) (f : bool) (v : json) :
  body request = Some {| Body.name := Some (JStr n);
                         Body.description := Some (JStr d);
                         Body.isOnDiet := Some (JBool f);
                         Body.date := Some v |} ->
  let stored t :=
    meals (snd (post_meal request w))
    = meals w ++ [ {| id := uuid_source (uuid_tick w);
                      user_id := uid (user request);
                      name := n; description := d; is_on_diet := f;
                      date := t |} ] in
  (v = JNull -> stored 0%Z)
  /\ (forall b, v = JBool b -> stored (if b then 1 else 0)%Z)
  /\ (forall k, v = JNum k -> (Z.abs k <= maxTime)%Z -> stored k)
  /\ (forall k, v = JNum k -> (maxTime < Z.abs k)%Z ->
        post_meal request w = (Threw (ZodError ["date"]), w)).
Proof.
  intros Hbody stored. unfold stored. unfold post_meal. rewrite Hbody.
  unfold createMealBodySchema, z_coerce_date.
  cbn [Body.name Body.description Body.isOnDiet Body.date z_string z_boolean].
  split; [intros ->; reflexivity|].
  split; [intros b ->; reflexivity|].
  split; intros k -> Hk; cbn [new_Date]; unfold TimeClip.
  - destruct (Z.leb_spec (Z.abs k) maxTime); [reflexivity | lia].
  - destruct (Z.leb_spec (Z.abs k) maxTime); [lia | reflexivity].
Qed.

(** *** The order of the checks of the update route *)

(** X4. [PUT /:id] checks the [id] parameter before anything else and
    the body only after the row is found: a malformed id throws with
    the one issue [id] whatever the body is and sends no query; a body
    that fails the schema, on the id of a row, throws after the lookup
    and writes nothing. *)
Theorem put_meal_check_order (request : Request) (w : World) :
  (is_uuid (params_id request) = false ->
   put_meal request w = (Threw (ZodError ["id"]), w))
  /\ (forall meal issues,
        is_uuid (params_id request) = true ->
        find (has_id (params_id request)) (meals w) = Some meal ->
        editMealBodySchema (body request) = inl issues ->
        put_meal request w
        = (Threw (ZodError issues), looked_up (params_id request) w)
        /\ meals (snd (put_meal request w)) = meals w).
Proof.
  split.
  - intro Hu. run. rewrite Hu. reflexivity.
  - intros meal issues Hu Hf Hb.
    assert (E : put_meal request w
                = (Threw (ZodError issues), looked_up (params_id request) w)).
    { run. rewrite Hu. simpl. rewrite Hf. rewrite Hb. reflexivity. }
    rewrite E. split; reflexivity.
Qed.

(** X5. A write route that does not answer with its success status has
    written nothing: unless [POST /] answers 201, [PUT /:id] answers
    201 and [DELETE /:id] answers 204, the table after the request is
    the table before it. *)
Theorem failed_request_writes_nothing (request : Request) (w : World) :
  (fst (post_meal request w) <> Returned {| status := 201; payload := NoBody |} ->
   meals (snd (post_meal request w)) = meals w)
  /\ (fst (put_meal request w) <> Returned {| status := 201; payload := NoBody |} ->
      meals (snd (put_meal request w)) = meals w)
  /\ (fst (delete_meal request w) <> Returned {| status := 204; payload := NoBody |} ->
      meals (snd (delete_meal request w)) = meals w).
Proof.
  split; [|split].
  - destruct (createMealBodySchema (body request)) as [issues|b] eqn:Hb.
    + rewrite (post_meal_refused _ w _ Hb). reflexivity.
    + rewrite (post_meal_parsed _ w _ Hb). simpl.
      intro H. elim H. reflexivity.
  - destruct (is_uuid (params_id request)) eqn:Hu.
    + destruct (find (has_id (params_id request)) (meals w)) as [meal|] eqn:Hf.
      * destruct (editMealBodySchema (body request)) as [issues|b] eqn:Hb.
        -- intros _. run. rewrite Hu. simpl. rewrite Hf. rewrite Hb. reflexivity.
        -- destruct (put_meal_written _ _ _ _ Hu Hf Hb) as [-> _].
           intro H. elim H. reflexivity.
      * rewrite (put_meal_not_found _ _ Hu Hf). reflexivity.
    + intros _. run. rewrite Hu. reflexivity.
  - destruct (is_uuid (params_id request)) eqn:Hu.
    + destruct (find (has_id (params_id request)) (meals w)) as [meal|] eqn:Hf.
      * destruct (delete_meal_found _ _ _ Hu Hf) as [-> _].
        intro H. elim H. reflexivity.
      * rewrite (delete_meal_not_found _ _ Hu Hf). reflexivity.
    + rewrite (delete_meal_malformed_id _ _ Hu). reflexivity.
Qed.

(** *** Deleting twice *)

(** X6. After [DELETE /:id] has removed the rows of an id, the same
    request answers 404 and leaves the table as the first one left
    it. *)
Theorem delete_twice_not_found (request : Request) (w : World) (m : Meal) :
  is_uuid (params_id request) = true ->
  In m (meals w) ->
  id m = params_id request ->
  fst (delete_meal request w) = Returned {| status := 204; payload := NoBody |}
  /\ delete_meal request (snd (delete_meal request w))
     = (Returned {| status := 404; payload := ErrorBody "Meal not found" |},
        looked_up (params_id request) (snd (delete_meal request w)))
  /\ meals (snd (delete_meal request (snd (delete_meal request w))))
     = meals (snd (delete_meal request w)).
Proof.
  intros Hu Hin Hid.
  destruct (find_present _ _ _ Hin Hid) as [m' Hf].
  destruct (delete_meal_found _ _ _ Hu Hf) as [Hr Hm].
  assert (Hgone : find (has_id (params_id request))
                       (meals (snd (delete_meal request w))) = None).
  { rewrite Hm. apply find_absent. intros r Hr'.
    apply in_filter_other in Hr'. tauto. }
  rewrite (delete_meal_not_found _ _ Hu Hgone).
  split; [exact Hr|]. split; reflexivity.
Qed.

(** *** Updating: reading back, repeating *)

Lemma rewrite_id_keeps (i : string) (b : EditMealBody.t) (meal r : Meal) :
  id (rewrite_id i (edited b meal) r) = id r
  /\ user_id (rewrite_id i (edited b meal) r) = user_id r.
Proof.
  unfold rewrite_id. destruct (has_id i r); split; reflexivity.
Qed.

Lemma find_rewritten (i : string) (f : Meal -> Meal) (t : list Meal) (meal : Meal) :
  (forall r, id (f r) = id r) ->
  find (has_id i) t = Some meal ->
  find (has_id i) (map (rewrite_id i f) t) = Some (f meal).
Proof.
  intros Hid. induction t as [|a t IH]; simpl; [discriminate|].
  destruct (has_id i a) eqn:Ha.
  - intros [= ->]. unfold rewrite_id. rewrite Ha.
    assert (E : has_id i (f meal) = true)
      by (unfold has_id in *; rewrite Hid; exact Ha).
    rewrite E. reflexivity.
  - unfold rewrite_id at 1. rewrite Ha. simpl. rewrite Ha. exact IH.
Qed.

Lemma find_rewritten_none (i : string) (f : Meal -> Meal) (t : list Meal) :
  find (has_id i) t = None ->
  map (rewrite_id i f) t = t.
Proof.
  induction t as [|a t IH]; simpl; [reflexivity|].
  destruct (has_id i a) eqn:Ha; [discriminate|].
  intro H. rewrite (IH H). unfold rewrite_id. rewrite Ha. reflexivity.
Qed.

Lemma edited_twice (b : EditMealBody.t) (meal r : Meal) :
  edited b (edited b meal meal) (edited b meal r) = edited b meal r.
Proof.
  unfold edited, set_columns. simpl.
  destruct (EditMealBody.name b), (EditMealBody.description b),
    (EditMealBody.isOnDiet b), (EditMealBody.date b); reflexivity.
Qed.

(** X7. [PUT /:id] is idempotent: sending the same request a second
    time gets the same reply and leaves the table as the first one
    left it, whether the request is refused, finds no row or rewrites
    one. *)
Theorem put_meal_idempotent (request : Request) (w : World) :
  fst (put_meal request (snd (put_meal request w))) = fst (put_meal request w)
  /\ meals (snd (put_meal request (snd (put_meal request w))))
     = meals (snd (put_meal request w)).
Proof.
  destruct (is_uuid (params_id request)) eqn:Hu.
  2:{ rewrite (put_meal_malformed_id request w Hu). simpl.
      rewrite (put_meal_malformed_id request w Hu). split; reflexivity. }
  destruct (find (has_id (params_id request)) (meals w)) as [meal|] eqn:Hf.
  2:{ rewrite (put_meal_not_found request w Hu Hf). simpl.
      rewrite (put_meal_not_found request (looked_up _ w) Hu Hf).
      split; reflexivity. }
  destruct (editMealBodySchema (body request)) as [issues|b] eqn:Hb.
  - rewrite (put_meal_invalid_body request w _ _ Hu Hf Hb). simpl.
    rewrite (put_meal_invalid_body request (looked_up _ w) _ _ Hu Hf Hb).
    split; reflexivity.
  - destruct (put_meal_written _ _ _ _ Hu Hf Hb) as [Hr Hm].
    assert (Hf' : find (has_id (params_id request))
                       (meals (snd (put_meal request w)))
                  = Some (edited b meal meal)).
    { rewrite Hm. apply find_rewritten; [reflexivity | exact Hf]. }
    destruct (put_meal_written _ _ _ _ Hu Hf' Hb) as [Hr' Hm'].
    split; [congruence|].
    rewrite Hm', Hm, map_map. apply map_ext. intro r.
    unfold rewrite_id. destruct (has_id (params_id request) r) eqn:Hr0.
    + assert (E : has_id (params_id request) (edited b meal r) = true)
        by exact Hr0.
      rewrite E. apply edited_twice.
    + rewrite Hr0. reflexivity.
Qed.

(** X8. After [PUT /:id] has answered 201 for the row it found,
    [GET /:id] for that id answers 200 with that row rewritten: its
    [id] and [user_id] as before, and in each other column the value
    of the body or, for an absent key, the value it had. *)
Theorem put_then_get (request request' : Request) (w : World) (meal : Meal)
        (b : EditMealBody.t) :
  is_uuid (params_id request) = true ->
  find (has_id (params_id request)) (meals w) = Some meal ->
  editMealBodySchema (body request) = inr b ->
  params_id request' = params_id request ->
  fst (get_meal request' (snd (put_meal request w)))
  = Returned
      {| status := 200;
         payload := MealBody
           {| id := id meal;
              user_id := user_id meal;
              name := nullish (EditMealBody.name b) (name meal);
              description :=
                nullish (EditMealBody.description b) (description meal);
              is_on_diet := nullish (EditMealBody.isOnDiet b) (is_on_diet meal);
              date := nullish (option_map getDate (EditMealBody.date b))
                              (date meal) |} |}.
Proof.
  intros Hu Hf Hb Hp.
  destruct (put_meal_written _ _ _ _ Hu Hf Hb) as [_ Hm].
  rewrite get_meal_reply by (rewrite Hp; exact Hu).
  rewrite Hp, Hm, (find_rewritten _ (edited b meal) _ meal); [reflexivity| |exact Hf].
  reflexivity.
Qed.

(** *** Ids stay unique *)

(** X9. No route breaks the key of the table: from a table with unique
    ids, the three reading routes, [PUT /:id] and [DELETE /:id] leave a
    table with unique ids, and so does [POST /] when the UUID it draws
    is carried by no row. *)
Theorem routes_keep_unique_ids (request : Request) (w : World) :
  unique_ids (meals w) ->
  unique_ids (meals (snd (get_meal request w)))
  /\ unique_ids (meals (snd (get_meals request w)))
  /\ unique_ids (meals (snd (get_metrics request w)))
  /\ unique_ids (meals (snd (put_meal request w)))
  /\ unique_ids (meals (snd (delete_meal request w)))
  /\ ((forall r, In r (meals w) -> id r <> uuid_source (uuid_tick w)) ->
      unique_ids (meals (snd (post_meal request w)))).
Proof.
  intro Hnd. destruct (reads_keep_table request w) as (E1 & E2 & E3).
  rewrite E1, E2, E3.
  split; [exact Hnd|]. split; [exact Hnd|]. split; [exact Hnd|].
  split; [unfold unique_ids; rewrite put_meal_keeps_ids; exact Hnd|].
  split; [apply delete_meal_keeps_unique, Hnd|].
  intro Hfresh. apply post_meal_keeps_unique; assumption.
Qed.

(** *** Writes seen through the list and the metrics *)

Lemma perm_filter {A} (p : A -> bool) (l l' : list A) :
  Permutation l l' -> Permutation (filter p l) (filter p l').
Proof.
  induction 1 as [| x l l' _ IH | x y l | l l' l'' _ IH1 _ IH2]; simpl.
  - constructor.
  - destruct (p x); [apply perm_skip|]; exact IH.
  - destruct (p x), (p y); try apply Permutation_refl. apply perm_swap.
  - eapply perm_trans; eassumption.
Qed.

Lemma owned_app (u : string) (t : list Meal) (r : Meal) :
  owned u (t ++ [r]) = owned u t ++ (if owned_by u r then [r] else []).
Proof.
  unfold owned. rewrite filter_app. simpl. destruct (owned_by u r); reflexivity.
Qed.

Lemma owned_map (u : string) (f : Meal -> Meal) (t : list Meal) :
  (forall r, user_id (f r) = user_id r) ->
  owned u (map f t) = map f (owned u t).
Proof.
  intro Hf. unfold owned. induction t as [|a t IH]; simpl; [reflexivity|].
  assert (E : owned_by u (f a) = owned_by u a)
    by (unfold owned_by; rewrite Hf; reflexivity).
  rewrite E. destruct (owned_by u a); simpl; rewrite IH; reflexivity.
Qed.

Lemma owned_filter (u : string) (p : Meal -> bool) (t : list Meal) :
  owned u (filter p t) = filter p (owned u t).
Proof.
  unfold owned. induction t as [|a t IH]; simpl; [reflexivity|].
  destruct (p a) eqn:Hp, (owned_by u a) eqn:Ho; simpl;
    rewrite ?Hp, ?Ho, IH; reflexivity.
Qed.

(** The table after [PUT /:id]: every row is where it was, with the
    [id] and the [user_id] it had. *)
Lemma put_meal_table (request : Request) (w : World) :
  exists f,
    (forall r, id (f r) = id r /\ user_id (f r) = user_id r)
    /\ meals (snd (put_meal request w)) = map f (meals w).
Proof.
  destruct (is_uuid (params_id request)) eqn:Hu.
  2:{ exists (fun r => r). rewrite (put_meal_malformed_id request w Hu).
      simpl. rewrite map_id. auto. }
  destruct (find (has_id (params_id request)) (meals w)) as [meal|] eqn:Hf.
  2:{ exists (fun r => r). rewrite (put_meal_not_found request w Hu Hf).
      simpl. rewrite map_id. auto. }
  destruct (editMealBodySchema (body request)) as [issues|b] eqn:Hb.
  - exists (fun r => r). rewrite (put_meal_invalid_body request w _ _ Hu Hf Hb).
    simpl. rewrite map_id. auto.
  - exists (rewrite_id (params_id request) (edited b meal)).
    split; [intro r; apply rewrite_id_keeps|].
    apply (put_meal_written _ _ _ _ Hu Hf Hb).
Qed.

(** X10. A meal created by one user is invisible to every other user:
    after any [POST /] of a user, [GET /] and [GET /metrics] of a user
    with another id answer what they answered before. *)
Theorem post_meal_isolated (request other : Request) (w : World) :
  uid (user request) <> uid (user other) ->
  fst (get_meals other (snd (post_meal request w))) = fst (get_meals other w)
  /\ fst (get_metrics other (snd (post_meal request w)))
     = fst (get_metrics other w).
Proof.
  intro Hne.
  assert (E : owned (uid (user other)) (meals (snd (post_meal request w)))
              = owned (uid (user other)) (meals w)).
  { destruct (createMealBodySchema (body request)) as [issues|b] eqn:Hb;
      [rewrite (post_meal_refused _ w _ Hb); reflexivity|].
    rewrite (post_meal_parsed _ w _ Hb). simpl.
    rewrite owned_app.
    assert (Ho : owned_by (uid (user other)) (created request w b) = false)
      by (apply String.eqb_neq; exact Hne).
    rewrite Ho. apply app_nil_r. }
  rewrite !get_meals_reply, !get_metrics_reply, E. split; reflexivity.
Qed.

(** X11. [PUT /:id] moves no meal from one user to another and adds or
    removes none: after any [PUT /:id], [GET /] of any user lists meals
    with the same ids as before and [GET /metrics] counts as many. *)
Theorem put_meal_keeps_owners (request other : Request) (w : World) :
  exists ms ms' m m',
    fst (get_meals other w)
    = Returned {| status := 200; payload := MealsBody ms |}
    /\ fst (get_meals other (snd (put_meal request w)))
       = Returned {| status := 200; payload := MealsBody ms' |}
    /\ fst (get_metrics other w)
       = Returned {| status := 200; payload := MetricsBody m |}
    /\ fst (get_metrics other (snd (put_meal request w)))
       = Returned {| status := 200; payload := MetricsBody m' |}
    /\ Permutation (map id ms') (map id ms)
    /\ totalMeals m' = totalMeals m.
Proof.
  destruct (put_meal_table request w) as (f & Hf & Hm).
  do 4 eexists.
  split; [apply get_meals_reply|]. split; [apply get_meals_reply|].
  split; [apply get_metrics_reply|]. split; [apply get_metrics_reply|].
  rewrite Hm, owned_map by (intro r; apply Hf).
  set (l := owned (uid (user other)) (meals w)).
  assert (Hids : map id (map f l) = map id l).
  { rewrite map_map. apply map_ext. intro r. apply Hf. }
  assert (Hp : Permutation (map id (order_by_date_desc (map f l)))
                           (map id (order_by_date_desc l))).
  { eapply perm_trans; [apply Permutation_map, order_by_perm|].
    rewrite Hids. apply Permutation_sym, Permutation_map, order_by_perm. }
  split; [exact Hp|].
  simpl. rewrite <- (length_map id), (Permutation_length Hp), length_map.
  reflexivity.
Qed.

(** X12. After [POST /] has answered 201, [GET /] of the creating user
    lists the meals it listed before and the new row, and
    [GET /metrics] counts one more meal, one more on diet when the new
    meal is on diet and one more off diet when it is not. *)
Theorem post_then_list_and_metrics (request other : Request) (w : World)
        (b : CreateMealBody.t) :
  createMealBodySchema (body request) = inr b ->
  uid (user other) = uid (user request) ->
  exists ms ms' m m',
    fst (get_meals other w)
    = Returned {| status := 200; payload := MealsBody ms |}
    /\ fst (get_meals other (snd (post_meal request w)))
       = Returned {| status := 200; payload := MealsBody ms' |}
    /\ fst (get_metrics other w)
       = Returned {| status := 200; payload := MetricsBody m |}
    /\ fst (get_metrics other (snd (post_meal request w)))
       = Returned {| status := 200; payload := MetricsBody m' |}
    /\ Permutation ms' (created request w b :: ms)
    /\ totalMeals m' = S (totalMeals m)
    /\ totalMealsOnDiet m'
       = totalMealsOnDiet m + (if CreateMealBody.isOnDiet b then 1 else 0)
    /\ totalMealsOffDiet m'
       = totalMealsOffDiet m + (if CreateMealBody.isOnDiet b then 0 else 1).
Proof.
  intros Hb Hu. do 4 eexists.
  split; [apply get_meals_reply|]. split; [apply get_meals_reply|].
  split; [apply get_metrics_reply|]. split; [apply get_metrics_reply|].
  rewrite (post_meal_parsed _ w _ Hb). simpl.
  rewrite owned_app.
  assert (Ho : owned_by (uid (user other)) (created request w b) = true)
    by (apply String.eqb_eq; symmetry; exact Hu).
  rewrite Ho. set (l := owned (uid (user other)) (meals w)).
  assert (Hp : Permutation (order_by_date_desc (l ++ [created request w b]))
                           (created request w b :: order_by_date_desc l)).
  { eapply perm_trans; [apply order_by_perm|].
    eapply perm_trans; [apply Permutation_sym, Permutation_cons_append|].
    apply perm_skip, Permutation_sym, order_by_perm. }
  split; [exact Hp|].
  split; [rewrite (Permutation_length Hp); reflexivity|].
  rewrite !filter_app, !length_app. cbn [filter].
  assert (Et : on_diet_is true (created request w b) = CreateMealBody.isOnDiet b)
    by (unfold on_diet_is; simpl; destruct (CreateMealBody.isOnDiet b); reflexivity).
  assert (Ef : on_diet_is false (created request w b)
               = negb (CreateMealBody.isOnDiet b))
    by (unfold on_diet_is; simpl; destruct (CreateMealBody.isOnDiet b); reflexivity).
  rewrite Et, Ef. destruct (CreateMealBody.isOnDiet b); split; reflexivity.
Qed.

Lemma owned_split (u : string) (l1 l2 : list Meal) (m : Meal) :
  user_id m = u ->
  owned u (l1 ++ m :: l2) = owned u l1 ++ m :: owned u l2.
Proof.
  intro Hu. unfold owned. rewrite filter_app. simpl.
  assert (E : owned_by u m = true) by (apply String.eqb_eq; exact Hu).
  rewrite E. reflexivity.
Qed.

(** X13. After [DELETE /:id] has removed the rows of an id, [GET /] of
    any user lists what it listed before without the rows of that id;
    with unique ids the owner of the row has exactly one meal less. *)
Theorem delete_then_list (request other : Request) (w : World) (m : Meal) :
  is_uuid (params_id request) = true ->
  In m (meals w) ->
  id m = params_id request ->
  exists ms ms',
    fst (get_meals other w)
    = Returned {| status := 200; payload := MealsBody ms |}
    /\ fst (get_meals other (snd (delete_meal request w)))
       = Returned {| status := 200; payload := MealsBody ms' |}
    /\ Permutation ms' (filter (other_id (params_id request)) ms)
    /\ (forall x, In x ms' <-> In x ms /\ id x <> params_id request)
    /\ (unique_ids (meals w) -> user_id m = uid (user other) ->
        List.length ms = S (List.length ms')).
Proof.
  intros Hu Hin Hid.
  destruct (find_present _ _ _ Hin Hid) as [m' Hf].
  destruct (delete_meal_found _ _ _ Hu Hf) as [_ Hm].
  do 2 eexists.
  split; [apply get_meals_reply|]. split; [apply get_meals_reply|].
  rewrite Hm, owned_filter.
  set (l := owned (uid (user other)) (meals w)).
  set (p := other_id (params_id request)).
  assert (Hp : Permutation (order_by_date_desc (filter p l))
                           (filter p (order_by_date_desc l))).
  { eapply perm_trans; [apply order_by_perm|].
    apply perm_filter, Permutation_sym, order_by_perm. }
  split; [exact Hp|]. split.
  - intro x. split.
    + intro Hx. apply (Permutation_in _ Hp) in Hx.
      apply in_filter_other in Hx. exact Hx.
    + intro Hx. apply (Permutation_in _ (Permutation_sym Hp)).
      apply in_filter_other. exact Hx.
  - intros Hnd Hown.
    destruct (unique_split _ _ _ Hnd Hin Hid) as (l1 & l2 & E & _ & H1 & H2).
    rewrite (Permutation_length (order_by_perm _)).
    rewrite (Permutation_length (order_by_perm _)).
    unfold l, p. rewrite <- owned_filter, E.
    unfold other_id. rewrite (delete_unique _ _ _ _ Hid H1 H2).
    rewrite (owned_split _ _ _ _ Hown).
    unfold owned. rewrite !filter_app, !length_app. simpl. lia.
Qed.

(** X14. [GET /metrics] describes the list [GET /] returns for the same
    user on the same table: [totalMeals] is its length,
    [totalMealsOnDiet] and [totalMealsOffDiet] count its on-diet and
    off-diet meals, and [bestOnDietSequence] is the reduction of that
    very sequence. *)
Theorem metrics_agrees_with_list (request : Request) (w : World) :
  exists ms m,
    fst (get_meals request w)
    = Returned {| status := 200; payload := MealsBody ms |}
    /\ fst (get_metrics request w)
       = Returned {| status := 200; payload := MetricsBody m |}
    /\ totalMeals m = List.length ms
    /\ totalMealsOnDiet m = List.length (filter is_on_diet ms)
    /\ totalMealsOffDiet m
       = List.length (filter (fun x => negb (is_on_diet x)) ms)
    /\ bestOnDietSequence m = Acc.bestOnDietSequence (reduce_sequence ms).
Proof.
  do 2 eexists.
  split; [apply get_meals_reply|]. split; [apply get_metrics_reply|]. simpl.
  set (l := owned (uid (user request)) (meals w)).
  pose proof (order_by_perm l) as Hp.
  split; [reflexivity|].
  split.
  - rewrite (filter_length_perm is_on_diet _ _ Hp), on_diet_is_true. reflexivity.
  - split; [|reflexivity].
    rewrite (filter_length_perm (fun x => negb (is_on_diet x)) _ _ Hp).
    reflexivity.
Qed.

(** *** The streak *)

Lemma some_on_diet_run (ms : list Meal) :
  filter is_on_diet ms <> [] -> has_run 1 (map is_on_diet ms).
Proof.
  induction ms as [|a ms IH]; simpl; [intro H; elim H; reflexivity|].
  destruct (is_on_diet a) eqn:Ha.
  - intros _. exists [], (map is_on_diet ms). reflexivity.
  - intro H. destruct (IH H) as (before & after & E).
    exists (false :: before), after. simpl. rewrite E. reflexivity.
Qed.

Lemma all_on_diet_flags (ms : list Meal) :
  filter (on_diet_is false) ms = [] ->
  map is_on_diet ms = repeat true (List.length ms).
Proof.
  induction ms as [|a ms IH]; simpl; [reflexivity|].
  unfold on_diet_is at 1. destruct (is_on_diet a); simpl; [|discriminate].
  intro H. rewrite (IH H). reflexivity.
Qed.

Lemma best_le_on_diet (ms : list Meal) :
  Acc.bestOnDietSequence (reduce_sequence ms) <= on_diet_count ms.
Proof.
  destruct (fold_reducer_bound ms
              {| Acc.bestOnDietSequence := 0; Acc.currentSequence := 0 |})
    as [_ H].
  simpl in H. exact H.
Qed.

Lemma on_diet_le_length (ms : list Meal) : on_diet_count ms <= List.length ms.
Proof.
  unfold on_diet_count. pose proof (diet_partition ms) as H.
  rewrite on_diet_is_true in H. lia.
Qed.

(** On any sequence of meals: the streak is 0 exactly when no meal is
    on diet, and it is the whole length exactly when no meal is off
    diet. *)
Lemma reduce_sequence_extremes (ms : list Meal) :
  (Acc.bestOnDietSequence (reduce_sequence ms) = 0 <-> on_diet_count ms = 0)
  /\ (Acc.bestOnDietSequence (reduce_sequence ms) = List.length ms
      <-> List.length (filter (on_diet_is false) ms) = 0).
Proof.
  pose proof (best_le_on_diet ms) as Hle.
  pose proof (on_diet_le_length ms) as Hlen.
  pose proof (diet_partition ms) as Hpart. rewrite on_diet_is_true in Hpart.
  fold (on_diet_count ms) in Hpart.
  destruct (reduce_sequence_longest_run ms) as [_ Hmax].
  split; split.
  - intro H0. unfold on_diet_count.
    destruct (filter is_on_diet ms) as [|a r] eqn:E; [reflexivity|].
    assert (Hne : filter is_on_diet ms <> []) by (rewrite E; discriminate).
    pose proof (Hmax 1 (some_on_diet_run ms Hne)). lia.
  - lia.
  - lia.
  - intro Hoff. apply length_zero_iff_nil in Hoff.
    assert (Hrun : has_run (List.length ms) (map is_on_diet ms)).
    { exists [], []. rewrite (all_on_diet_flags ms Hoff), app_nil_r. reflexivity. }
    pose proof (Hmax _ Hrun). lia.
Qed.

(** X15. In the answer of [GET /metrics], [bestOnDietSequence] is 0
    exactly when [totalMealsOnDiet] is 0, and it equals [totalMeals]
    exactly when [totalMealsOffDiet] is 0. *)
Theorem metrics_best_extremes (request : Request) (w : World) :
  exists m,
    fst (get_metrics request w)
    = Returned {| status := 200; payload := MetricsBody m |}
    /\ (bestOnDietSequence m = 0 <-> totalMealsOnDiet m = 0)
    /\ (bestOnDietSequence m = totalMeals m <-> totalMealsOffDiet m = 0).
Proof.
  eexists. split; [apply get_metrics_reply|]. simpl.
  set (l := owned (uid (user request)) (meals w)).
  pose proof (order_by_perm l) as Hp.
  destruct (reduce_sequence_extremes (order_by_date_desc l)) as [H0 Hall].
  unfold on_diet_count in H0.
  rewrite (filter_length_perm is_on_diet _ _ Hp) in H0.
  rewrite (filter_length_perm (on_diet_is false) _ _ Hp) in Hall.
  rewrite on_diet_is_true. split; assumption.
Qed.

(** X16. In the answer of [GET /metrics], [bestOnDietSequence] is the
    length of a run of consecutive on-diet meals of the acting user's
    meals taken most recent first, and no such run is longer. *)
Theorem metrics_longest_run (request : Request) (w : World) :
  let flags :=
    map is_on_diet (order_by_date_desc (owned (uid (user request)) (meals w))) in
  exists m,
    fst (get_metrics request w)
    = Returned {| status := 200; payload := MetricsBody m |}
    /\ has_run (bestOnDietSequence m) flags
    /\ (forall k, has_run k flags -> k <= bestOnDietSequence m).
Proof.
  intro flags. eexists. split; [apply get_metrics_reply|]. simpl.
  apply reduce_sequence_longest_run.
Qed.

Lemma rev_repeat_true (k : nat) : rev (repeat true k) = repeat true k.
Proof.
  induction k as [|k IH]; simpl; [reflexivity|].
  rewrite IH. symmetry. apply repeat_cons.
Qed.

Lemma has_run_rev (k : nat) (flags : list bool) :
  has_run k flags -> has_run k (rev flags).
Proof.
  intros (before & after & ->). exists (rev after), (rev before).
  rewrite !rev_app_distr, rev_repeat_true, app_assoc. reflexivity.
Qed.

(** X17. The streak does not depend on the direction of the scan: the
    reduction of the metrics route gives the same
    [bestOnDietSequence] on a sequence of meals and on its reverse. *)
Theorem reduce_sequence_rev (ms : list Meal) :
  Acc.bestOnDietSequence (reduce_sequence (rev ms))
  = Acc.bestOnDietSequence (reduce_sequence ms).
Proof.
  destruct (reduce_sequence_longest_run ms) as [Hrun Hmax].
  destruct (reduce_sequence_longest_run (rev ms)) as [Hrun' Hmax'].
  apply Nat.le_antisymm.
  - apply Hmax. apply has_run_rev in Hrun'.
    rewrite <- map_rev, rev_involutive in Hrun'. exact Hrun'.
  - apply Hmax'. rewrite map_rev. apply has_run_rev. exact Hrun.
Qed.

Lemma running_counts_shift (flags : list bool) (c k : nat) :
  list_max (running_counts (c + k) flags)
  <= k + list_max (running_counts c flags).
Proof.
  revert c. induction flags as [|f flags IH]; intro c.
  - simpl. lia.
  - rewrite !running_counts_cons, !list_max_cons. destruct f.
    + specialize (IH (S c)). simpl in IH. lia.
    + lia.
Qed.

Lemma fold_current_le_best (ms : list Meal) (acc : Acc.t) :
  Acc.currentSequence acc <= Acc.bestOnDietSequence acc ->
  Acc.currentSequence (fold_left reducer ms acc)
  <= Acc.bestOnDietSequence (fold_left reducer ms acc).
Proof.
  revert acc. induction ms as [|m ms IH]; intros acc H; simpl; [exact H|].
  apply IH. rewrite reducer_best. lia.
Qed.

(** X18. Cutting a sequence of meals in two: the streak of the whole
    is at least the streak of each part and at most the sum of the two
    streaks. *)
Theorem reduce_sequence_app (ms ms' : list Meal) :
  Nat.max (Acc.bestOnDietSequence (reduce_sequence ms))
          (Acc.bestOnDietSequence (reduce_sequence ms'))
  <= Acc.bestOnDietSequence (reduce_sequence (ms ++ ms'))
  /\ Acc.bestOnDietSequence (reduce_sequence (ms ++ ms'))
     <= Acc.bestOnDietSequence (reduce_sequence ms)
        + Acc.bestOnDietSequence (reduce_sequence ms').
Proof.
  split.
  - destruct (reduce_sequence_longest_run (ms ++ ms')) as [_ Hmax].
    destruct (reduce_sequence_longest_run ms) as [(b1 & a1 & E1) _].
    destruct (reduce_sequence_longest_run ms') as [(b2 & a2 & E2) _].
    apply Nat.max_lub; apply Hmax; rewrite map_app.
    + exists b1, (a1 ++ map is_on_diet ms').
      rewrite E1, <- !app_assoc. reflexivity.
    + exists (map is_on_diet ms ++ b2), a2.
      rewrite E2, <- !app_assoc. reflexivity.
  - unfold reduce_sequence at 1. rewrite fold_left_app, fold_reducer_best.
    fold (reduce_sequence ms).
    pose proof (fold_current_le_best ms
                  {| Acc.bestOnDietSequence := 0; Acc.currentSequence := 0 |}
                  (Nat.le_refl 0)) as Hc.
    fold (reduce_sequence ms) in Hc.
    pose proof (running_counts_shift (map is_on_diet ms') 0
                  (Acc.currentSequence (reduce_sequence ms))) as Hs.
    simpl in Hs.
    assert (Hb : Acc.bestOnDietSequence (reduce_sequence ms')
                 = list_max (running_counts 0 (map is_on_diet ms'))).
    { unfold reduce_sequence. rewrite fold_reducer_best. reflexivity. }
    lia.
Qed.

(** *** Creating, then deleting or fetching *)

(** X19. Creating a meal and deleting it by the id it was given brings
    the table back: when the UUID drawn by [POST /] is well formed and
    carried by no row, [DELETE /:id] for it answers 204 and leaves the
    table that was there before the creation. *)
Theorem post_then_delete (request request' : Request) (w : World)
        (b : CreateMealBody.t) :
  createMealBodySchema (body request) = inr b ->
  is_uuid (uuid_source (uuid_tick w)) = true ->
  (forall r, In r (meals w) -> id r <> uuid_source (uuid_tick w)) ->
  params_id request' = uuid_source (uuid_tick w) ->
  fst (delete_meal request' (snd (post_meal request w)))
  = Returned {| status := 204; payload := NoBody |}
  /\ meals (snd (delete_meal request' (snd (post_meal request w)))) = meals w.
Proof.
  intros Hb Hu Hfresh Hp.
  rewrite (post_meal_parsed _ w _ Hb). simpl.
  set (w1 := {| meals := meals w ++ [created request w b];
                issued := issued w ++ [Insert (created request w b)];
                uuid_tick := S (uuid_tick w) |}).
  assert (Hnew : has_id (params_id request') (created request w b) = true)
    by (apply has_id_true; rewrite Hp; reflexivity).
  assert (Hf : find (has_id (params_id request')) (meals w1)
               = Some (created request w b)).
  { simpl. rewrite find_app_absent by (apply find_absent; rewrite Hp; exact Hfresh).
    simpl. rewrite Hnew. reflexivity. }
  rewrite <- Hp in Hu.
  destruct (delete_meal_found _ _ _ Hu Hf) as [Hr Hm].
  split; [exact Hr|].
  rewrite Hm. simpl. unfold other_id. rewrite filter_app. simpl.
  rewrite Hnew. simpl. rewrite app_nil_r.
  apply filter_untouched. rewrite Forall_forall. intros r Hr'.
  apply has_id_false. rewrite Hp. apply Hfresh, Hr'.
Qed.

(** X20. Every meal that [GET /] lists can be fetched by its id: with
    unique ids, [GET /:id] for the id of a listed meal, when that id is
    a well-formed UUID, answers 200 with that very meal. *)
Theorem listed_meal_is_fetched (request request' : Request) (w : World)
        (ms : list Meal) (m : Meal) :
  unique_ids (meals w) ->
  fst (get_meals request w)
  = Returned {| status := 200; payload := MealsBody ms |} ->
  In m ms ->
  is_uuid (id m) = true ->
  params_id request' = id m ->
  fst (get_meal request' w)
  = Returned {| status := 200; payload := MealBody m |}.
Proof.
  intros Hnd Hlist Hin Hu Hp.
  rewrite get_meals_reply in Hlist. injection Hlist as <-.
  apply (Permutation_in _ (order_by_perm _)) in Hin.
  apply in_owned in Hin. destruct Hin as [Hin _].
  destruct (unique_split _ _ _ Hnd Hin (eq_sym Hp)) as (_ & _ & _ & Hf & _).
  rewrite get_meal_reply by (rewrite Hp; exact Hu).
  rewrite Hf. reflexivity.
Qed.

(** *** The body of an update *)

(** X21. On the id of a row, [PUT /:id] answers 201 exactly when the
    body is an object in which each of the four keys is absent or well
    typed: [name] and [description] strings, [isOnDiet] a boolean,
    [date] a value [new Date] accepts. An object without any key
    passes; a request without a body does not. *)
Theorem put_meal_accepts_iff (request : Request) (w : World) (meal : Meal) :
  is_uuid (params_id request) = true ->
  find (has_id (params_id request)) (meals w) = Some meal ->
  (fst (put_meal request w) = Returned {| status := 201; payload := NoBody |}
   <-> exists raw,
         body request = Some raw
         /\ (Body.name raw = None \/ exists n, Body.name raw = Some (JStr n))
         /\ (Body.description raw = None
             \/ exists d, Body.description raw = Some (JStr d))
         /\ (Body.isOnDiet raw = None
             \/ exists f, Body.isOnDiet raw = Some (JBool f))
         /\ (Body.date raw = None
             \/ exists v t, Body.date raw = Some v /\ new_Date (Some v) = Some t)).
Proof.
  intros Hu Hf. split.
  - intro Hrun.
    destruct (editMealBodySchema (body request)) as [issues|b] eqn:Hb.
    { rewrite (put_meal_invalid_body request w _ _ Hu Hf Hb) in Hrun.
      discriminate. }
    destruct (body request) as [raw|] eqn:Hbody; [|discriminate].
    destruct (edit_schema_fields _ _ Hb) as (Hn & Hd & Hfl & Ht).
    exists raw. split; [reflexivity|].
    split.
    { destruct (Body.name raw) as [[| | |n|]|]; try discriminate; eauto. }
    split.
    { destruct (Body.description raw) as [[| | |d|]|]; try discriminate; eauto. }
    split.
    { destruct (Body.isOnDiet raw) as [[|f| | |]|]; try discriminate; eauto. }
    destruct (Body.date raw) as [v|]; [|auto].
    right. apply z_optional_supplied in Ht. destruct Ht as (t & Ht & _).
    exists v, t. split; [reflexivity | exact Ht].
  - intros (raw & Hbody & Hn & Hd & Hfl & Ht).
    assert (Hb : exists b, editMealBodySchema (body request) = inr b).
    { rewrite Hbody. unfold editMealBodySchema.
      destruct Hn as [->|[n ->]]; destruct Hd as [->|[d ->]];
        destruct Hfl as [->|[f ->]]; destruct Ht as [->|(v & t & -> & Ht)];
        cbn [z_optional z_string z_boolean option_map];
        unfold z_coerce_date; rewrite ?Ht; cbn [option_map]; eauto. }
    destruct Hb as [b Hb].
    apply (put_meal_written _ _ _ _ Hu Hf Hb).
Qed.

(** X22. The day [PUT /:id] stores is the day of the local civil date:
    when the local time of the date of the body falls on day [d] of
    month [mo] of year [y], the [date] column of the row becomes
    [d]. *)
Theorem put_meal_stores_civil_day (request : Request) (w : World)
        (meal : Meal) (b : EditMealBody.t) (t y mo d ms : Z) :
  is_uuid (params_id request) = true ->
  find (has_id (params_id request)) (meals w) = Some meal ->
  editMealBodySchema (body request) = inr b ->
  EditMealBody.date b = Some t ->
  (t + LocalTZA t = days_from_civil y mo d * msPerDay + ms)%Z ->
  (1 <= mo <= 12)%Z ->
  (1 <= d <= DaysInMonth y mo)%Z ->
  (0 <= ms < msPerDay)%Z ->
  exists row,
    find (has_id (params_id request)) (meals (snd (put_meal request w)))
    = Some row
    /\ id row = id meal
    /\ date row = d.
Proof.
  intros Hu Hf Hb Ht Hlocal Hmo Hd Hms.
  destruct (put_meal_written _ _ _ _ Hu Hf Hb) as [_ Hm].
  exists (edited b meal meal). split.
  - rewrite Hm. apply find_rewritten; [reflexivity | exact Hf].
  - split; [reflexivity|].
    unfold edited. simpl. rewrite Ht. simpl. unfold getDate.
    rewrite Hlocal. apply DateFromTime_civil; assumption.
Qed.

End Further.

(** *** Instances of the theorems on the sample table *)

Import Host Insertion.

Lemma distinct_NoDup (l : list string) : Sample.distinct l = true -> NoDup l.
Proof.
  induction l as [|x r IH]; simpl; intro H; [constructor|].
  apply andb_true_iff in H. destruct H as [Hx Hr].
  constructor; [|exact (IH Hr)].
  intro Hin. apply negb_true_iff in Hx.
  assert (E : existsb (String.eqb x) r = true).
  { apply existsb_exists. exists x. split; [exact Hin | apply String.eqb_refl]. }
  congruence.
Qed.

Lemma all_other_spec (i : string) (t : list Meal) :
  Sample.all_other i t = true -> forall r, In r t -> id r <> i.
Proof.
  unfold Sample.all_other. rewrite forallb_forall. intros H r Hr.
  apply has_id_false, negb_true_iff, H, Hr.
Qed.

Lemma metrics_bestOnDietSequence_witness :
  exists m w',
    get_metrics (Sample.by_id Sample.alice "" None) Sample.world
      = (Returned {| status := 200; payload := MetricsBody m |}, w')
    /\ bestOnDietSequence m = 3.
Proof.
  destruct (metrics_bestOnDietSequence
              (Sample.by_id Sample.alice "" None) Sample.world)
    as (m & w' & Hrun & _ & _ & _ & Hex & _).
  exists m, w'. split; [exact Hrun | apply Hex; reflexivity].
Defined.

Lemma malformed_id_rejected_witness :
  is_uuid (params_id (Sample.by_id Sample.bob "42" None)) = false
  /\ get_meal (Sample.by_id Sample.bob "42" None) Sample.world
     = (Threw (ZodError ["id"%string]), Sample.world).
Proof.
  split; [reflexivity|].
  exact (proj1 (malformed_id_rejected
                  (Sample.by_id Sample.bob "42" None) Sample.world eq_refl)).
Defined.

Lemma unknown_id_not_found_witness :
  is_uuid (Host.nth_uuid 9) = true
  /\ (forall r, In r (meals Sample.world) -> id r <> Host.nth_uuid 9)
  /\ delete_meal (Sample.by_id Sample.bob (Host.nth_uuid 9) None) Sample.world
     = (Returned {| status := 404; payload := ErrorBody "Meal not found" |},
        looked_up (Host.nth_uuid 9) Sample.world).
Proof.
  assert (Habs : forall r, In r (meals Sample.world) -> id r <> Host.nth_uuid 9)
    by (apply all_other_spec; reflexivity).
  assert (Hu : is_uuid (Host.nth_uuid 9) = true) by reflexivity.
  split; [exact Hu|]. split; [exact Habs|].
  exact (proj1 (proj2 (proj2 (unknown_id_not_found
           (Sample.by_id Sample.bob (Host.nth_uuid 9) None) Sample.world
           Hu Habs)))).
Defined.

Lemma delete_removes_row_witness :
  is_uuid (Host.nth_uuid 3) = true
  /\ In (Sample.row 3 "alice" false (Sample.day 4)) (meals Sample.world)
  /\ exists w',
       delete_meal (Sample.by_id Sample.bob (Host.nth_uuid 3) None) Sample.world
       = (Returned {| status := 204; payload := NoBody |}, w')
       /\ List.length (meals w') = 6.
Proof.
  assert (Hin : In (Sample.row 3 "alice" false (Sample.day 4)) (meals Sample.world))
    by (simpl; tauto).
  assert (Hu : is_uuid (Host.nth_uuid 3) = true) by reflexivity.
  split; [exact Hu|]. split; [exact Hin|].
  destruct (delete_removes_row
              (Sample.by_id Sample.bob (Host.nth_uuid 3) None) Sample.world
              (Sample.row 3 "alice" false (Sample.day 4)) Hu Hin eq_refl)
    as (w' & Hrun & Hrows & _).
  exists w'. split; [exact Hrun | rewrite Hrows; reflexivity].
Defined.

Lemma sample_ids_unique : unique_ids (meals Sample.world).
Proof. apply distinct_NoDup. reflexivity. Qed.

Lemma sample_row0 :
  In (Sample.row 0 "alice" true (Sample.day 3)) (meals Sample.world).
Proof. simpl. tauto. Qed.

Lemma update_keeps_omitted_witness :
  is_uuid (Host.nth_uuid 0) = true
  /\ unique_ids (meals Sample.world)
  /\ In (Sample.row 0 "alice" true (Sample.day 3)) (meals Sample.world)
  /\ editMealBodySchema (Some Sample.rename) = inr Sample.renamed
  /\ exists meal' w' l1 l2,
       put_meal (Sample.by_id Sample.bob (Host.nth_uuid 0) (Some Sample.rename))
                Sample.world
       = (Returned {| status := 201; payload := NoBody |}, w')
       /\ meals w' = l1 ++ meal' :: l2
       /\ description meal' = "as planned"%string
       /\ is_on_diet meal' = true
       /\ name meal' = "lunch"%string.
Proof.
  assert (Hu : is_uuid (Host.nth_uuid 0) = true) by reflexivity.
  assert (Hb : editMealBodySchema (Some Sample.rename) = inr Sample.renamed)
    by reflexivity.
  split; [exact Hu|]. split; [exact sample_ids_unique|].
  split; [exact sample_row0|]. split; [exact Hb|].
  destruct (update_keeps_omitted
              (Sample.by_id Sample.bob (Host.nth_uuid 0) (Some Sample.rename))
              Sample.world (Sample.row 0 "alice" true (Sample.day 3))
              Sample.rename Sample.renamed
              Hu sample_ids_unique sample_row0 eq_refl eq_refl Hb)
    as (meal' & w' & l1 & l2 & Hrun & _ & Hw' & _ & _ & _ & Hd & Hf & _ & Hn & _).
  exists meal', w', l1, l2.
  split; [exact Hrun|]. split; [exact Hw'|].
  split; [exact (Hd eq_refl)|]. split; [exact (Hf eq_refl)|].
  exact (Hn "lunch"%string eq_refl).
Defined.

Lemma update_date_is_day_of_month_witness :
  is_uuid (Host.nth_uuid 0) = true
  /\ unique_ids (meals Sample.world)
  /\ In (Sample.row 0 "alice" true (Sample.day 3)) (meals Sample.world)
  /\ editMealBodySchema (Some Sample.rename) = inr Sample.renamed
  /\ exists meal' w' l1 l2,
       put_meal (Sample.by_id Sample.bob (Host.nth_uuid 0) (Some Sample.rename))
                Sample.world
       = (Returned {| status := 201; payload := NoBody |}, w')
       /\ meals w' = l1 ++ meal' :: l2
       /\ date meal' = 9%Z.
Proof.
  assert (Hu : is_uuid (Host.nth_uuid 0) = true) by reflexivity.
  assert (Hb : editMealBodySchema (Some Sample.rename) = inr Sample.renamed)
    by reflexivity.
  split; [exact Hu|]. split; [exact sample_ids_unique|].
  split; [exact sample_row0|]. split; [exact Hb|].
  destruct (update_date_is_day_of_month
              (Sample.by_id Sample.bob (Host.nth_uuid 0) (Some Sample.rename))
              Sample.world (Sample.row 0 "alice" true (Sample.day 3))
              Sample.rename Sample.renamed
              Hu sample_ids_unique sample_row0 eq_refl eq_refl Hb)
    as (meal' & w' & l1 & l2 & Hrun & _ & Hw' & Hdate & _).
  exists meal', w', l1, l2.
  split; [exact Hrun|]. split; [exact Hw'|].
  destruct (Hdate (JNum (Sample.day 40)) eq_refl) as (t & Hnew & Hd & _).
  vm_compute in Hnew. injection Hnew as <-.
  rewrite Hd. reflexivity.
Defined.

Lemma by_id_routes_ignore_user_witness :
  uid Sample.alice <> uid Sample.bob
  /\ user_id (Sample.row 0 "alice" true (Sample.day 3)) = uid Sample.alice
  /\ get_meal (Sample.by_id Sample.alice (Host.nth_uuid 0) None) Sample.world
     = get_meal (Sample.by_id Sample.bob (Host.nth_uuid 0) None) Sample.world
  /\ exists w',
       get_meal (Sample.by_id Sample.bob (Host.nth_uuid 0) None) Sample.world
       = (Returned {| status := 200;
                      payload := MealBody (Sample.row 0 "alice" true (Sample.day 3)) |},
          w').
Proof.
  assert (Hu : is_uuid (Host.nth_uuid 0) = true) by reflexivity.
  assert (Hf : find (has_id (Host.nth_uuid 0)) (meals Sample.world)
               = Some (Sample.row 0 "alice" true (Sample.day 3))) by reflexivity.
  destruct (by_id_routes_ignore_user
              (Sample.by_id Sample.alice (Host.nth_uuid 0) None)
              (Sample.by_id Sample.bob (Host.nth_uuid 0) None)
              Sample.world eq_refl eq_refl)
    as (Hget & _ & _ & Hany).
  split; [discriminate|]. split; [reflexivity|]. split; [exact Hget|].
  exact (proj1 (Hany _ Hu Hf)).
Defined.



(** *** The routes run on the sample table *)

Example sample_list :
  fst (get_meals (Sample.by_id Sample.alice "" None) Sample.world)
  = Returned
      {| status := 200;
         payload :=
           MealsBody
             [ Sample.row 2 "alice" true (Sample.day 6);
               Sample.row 5 "alice" true (Sample.day 5);
               Sample.row 3 "alice" false (Sample.day 4);
               Sample.row 0 "alice" true (Sample.day 3);
               Sample.row 6 "alice" true (Sample.day 2);
               Sample.row 4 "alice" true (Sample.day 1) ] |}.
Proof. reflexivity. Qed.

Example sample_metrics :
  fst (get_metrics (Sample.by_id Sample.alice "" None) Sample.world)
  = Returned
      {| status := 200;
         payload :=
           MetricsBody
             {| totalMeals := 6; totalMealsOnDiet := 5;
                totalMealsOffDiet := 1; bestOnDietSequence := 3 |} |}.
Proof. reflexivity. Qed.

Example sample_metrics_without_meals :
  fst (get_metrics (Sample.by_id {| uid := "carol" |} "" None) Sample.world)
  = Returned
      {| status := 200;
         payload :=
           MetricsBody
             {| totalMeals := 0; totalMealsOnDiet := 0;
                totalMealsOffDiet := 0; bestOnDietSequence := 0 |} |}.
Proof. reflexivity. Qed.

Example sample_update_without_keys :
  meals (snd (put_meal (Sample.by_id Sample.bob (nth_uuid 3) (Some Sample.no_keys))
                       Sample.world))
  = meals Sample.world.
Proof. reflexivity. Qed.

Example sample_update_without_body :
  put_meal (Sample.by_id Sample.bob (nth_uuid 3) None) Sample.world
  = (Threw (ZodError [""%string]), looked_up (nth_uuid 3) Sample.world).
Proof. reflexivity. Qed.

Example sample_update_date :
  map date
      (meals (snd (put_meal
                     (Sample.by_id Sample.bob (nth_uuid 0) (Some Sample.rename))
                     Sample.world)))
  = [ 9; Sample.day 9; Sample.day 6; Sample.day 4; Sample.day 1;
      Sample.day 5; Sample.day 2 ]%Z.
Proof. reflexivity. Qed.

(** *** Instances of the further properties on the sample table *)

Lemma sample_find_row0 :
  find (has_id (nth_uuid 0)) (meals Sample.world)
  = Some (Sample.row 0 "alice" true (Sample.day 3)).
Proof. reflexivity. Qed.

Lemma sample_uuid0 : is_uuid (nth_uuid 0) = true.
Proof. reflexivity. Qed.

Lemma sample_uuid3 : is_uuid (nth_uuid 3) = true.
Proof. reflexivity. Qed.

Lemma sample_row3 :
  In (Sample.row 3 "alice" false (Sample.day 4)) (meals Sample.world).
Proof. simpl. tauto. Qed.

Lemma sample_rename_parsed :
  editMealBodySchema (Some Sample.rename) = inr Sample.renamed.
Proof. reflexivity. Qed.

Lemma sample_new_meal_parsed :
  createMealBodySchema (Some Sample.new_meal)
  = inr {| CreateMealBody.name := "soup"; CreateMealBody.description := "late";
           CreateMealBody.isOnDiet := true;
           CreateMealBody.date := 1709164800000 |}.
Proof. reflexivity. Qed.

Lemma sample_fresh :
  forall r, In r (meals Sample.world) ->
            id r <> uuid_source (uuid_tick Sample.world).
Proof. apply all_other_spec. reflexivity. Qed.

Lemma post_meal_date_coercion_witness :
  body (Sample.by_id Sample.bob ""
          (Some {| Body.name := Some (JStr "soup");
                   Body.description := Some (JStr "late");
                   Body.isOnDiet := Some (JBool true);
                   Body.date := Some JNull |}))
  = Some {| Body.name := Some (JStr "soup");
            Body.description := Some (JStr "late");
            Body.isOnDiet := Some (JBool true);
            Body.date := Some JNull |}
  /\ meals (snd (post_meal
                   (Sample.by_id Sample.bob ""
                      (Some {| Body.name := Some (JStr "soup");
                               Body.description := Some (JStr "late");
                               Body.isOnDiet := Some (JBool true);
                               Body.date := Some JNull |}))
                   Sample.world))
     = meals Sample.world
       ++ [ {| id := nth_uuid 7; user_id := "bob"; name := "soup";
               description := "late"; is_on_diet := true; date := 0 |} ].
Proof.
  split; [reflexivity|].
  pose proof (post_meal_date_coercion
                (Sample.by_id Sample.bob ""
                   (Some {| Body.name := Some (JStr "soup");
                            Body.description := Some (JStr "late");
                            Body.isOnDiet := Some (JBool true);
                            Body.date := Some JNull |}))
                Sample.world "soup" "late" true JNull eq_refl) as H.
  cbv zeta in H. destruct H as [H _]. exact (H eq_refl).
Defined.

Lemma put_meal_check_order_witness :
  is_uuid (params_id (Sample.by_id Sample.bob "42" None)) = false
  /\ put_meal (Sample.by_id Sample.bob "42" None) Sample.world
     = (Threw (ZodError ["id"%string]), Sample.world).
Proof.
  split; [reflexivity|].
  exact (proj1 (put_meal_check_order
                  (Sample.by_id Sample.bob "42" None) Sample.world) eq_refl).
Defined.

Lemma failed_request_writes_nothing_witness :
  fst (post_meal (Sample.by_id Sample.bob "" None) Sample.world)
  <> Returned {| status := 201; payload := NoBody |}
  /\ meals (snd (post_meal (Sample.by_id Sample.bob "" None) Sample.world))
     = meals Sample.world.
Proof.
  assert (H : fst (post_meal (Sample.by_id Sample.bob "" None) Sample.world)
              <> Returned {| status := 201; payload := NoBody |})
    by (intro E; discriminate E).
  split; [exact H|].
  exact (proj1 (failed_request_writes_nothing
                  (Sample.by_id Sample.bob "" None) Sample.world) H).
Defined.

Lemma delete_twice_not_found_witness :
  is_uuid (nth_uuid 3) = true
  /\ In (Sample.row 3 "alice" false (Sample.day 4)) (meals Sample.world)
  /\ fst (delete_meal (Sample.by_id Sample.bob (nth_uuid 3) None)
            (snd (delete_meal (Sample.by_id Sample.bob (nth_uuid 3) None)
                              Sample.world)))
     = Returned {| status := 404; payload := ErrorBody "Meal not found" |}.
Proof.
  split; [exact sample_uuid3|]. split; [exact sample_row3|].
  destruct (delete_twice_not_found
              (Sample.by_id Sample.bob (nth_uuid 3) None) Sample.world
              (Sample.row 3 "alice" false (Sample.day 4))
              sample_uuid3 sample_row3 eq_refl) as (_ & H & _).
  rewrite H. reflexivity.
Defined.

Lemma put_then_get_witness :
  is_uuid (nth_uuid 0) = true
  /\ find (has_id (nth_uuid 0)) (meals Sample.world)
     = Some (Sample.row 0 "alice" true (Sample.day 3))
  /\ editMealBodySchema (Some Sample.rename) = inr Sample.renamed
  /\ fst (get_meal (Sample.by_id Sample.alice (nth_uuid 0) None)
            (snd (put_meal
                    (Sample.by_id Sample.bob (nth_uuid 0) (Some Sample.rename))
                    Sample.world)))
     = Returned
         {| status := 200;
            payload := MealBody
              {| id := nth_uuid 0; user_id := "alice"; name := "lunch";
                 description := "as planned"; is_on_diet := true;
                 date := 9 |} |}.
Proof.
  split; [exact sample_uuid0|]. split; [exact sample_find_row0|].
  split; [exact sample_rename_parsed|].
  rewrite (put_then_get
             (Sample.by_id Sample.bob (nth_uuid 0) (Some Sample.rename))
             (Sample.by_id Sample.alice (nth_uuid 0) None)
             Sample.world (Sample.row 0 "alice" true (Sample.day 3))
             Sample.renamed
             sample_uuid0 sample_find_row0 sample_rename_parsed eq_refl).
  reflexivity.
Defined.

Lemma routes_keep_unique_ids_witness :
  unique_ids (meals Sample.world)
  /\ unique_ids
       (meals (snd (delete_meal (Sample.by_id Sample.bob (nth_uuid 3) None)
                                Sample.world))).
Proof.
  split; [exact sample_ids_unique|].
  destruct (routes_keep_unique_ids
              (Sample.by_id Sample.bob (nth_uuid 3) None) Sample.world
              sample_ids_unique) as (_ & _ & _ & _ & H & _).
  exact H.
Defined.

Lemma post_meal_isolated_witness :
  uid (user (Sample.by_id Sample.alice "" (Some Sample.new_meal)))
  <> uid (user (Sample.by_id Sample.bob "" None))
  /\ fst (get_meals (Sample.by_id Sample.bob "" None)
            (snd (post_meal (Sample.by_id Sample.alice "" (Some Sample.new_meal))
                            Sample.world)))
     = fst (get_meals (Sample.by_id Sample.bob "" None) Sample.world).
Proof.
  assert (H : uid (user (Sample.by_id Sample.alice "" (Some Sample.new_meal)))
              <> uid (user (Sample.by_id Sample.bob "" None)))
    by (intro E; discriminate E).
  split; [exact H|].
  exact (proj1 (post_meal_isolated
                  (Sample.by_id Sample.alice "" (Some Sample.new_meal))
                  (Sample.by_id Sample.bob "" None) Sample.world H)).
Defined.

Lemma post_then_list_and_metrics_witness :
  createMealBodySchema (body (Sample.by_id Sample.bob "" (Some Sample.new_meal)))
  = inr {| CreateMealBody.name := "soup"; CreateMealBody.description := "late";
           CreateMealBody.isOnDiet := true;
           CreateMealBody.date := 1709164800000 |}
  /\ exists m m',
       fst (get_metrics (Sample.by_id Sample.bob "" None) Sample.world)
       = Returned {| status := 200; payload := MetricsBody m |}
       /\ fst (get_metrics (Sample.by_id Sample.bob "" None)
                 (snd (post_meal (Sample.by_id Sample.bob "" (Some Sample.new_meal))
                                 Sample.world)))
          = Returned {| status := 200; payload := MetricsBody m' |}
       /\ totalMeals m' = S (totalMeals m)
       /\ totalMealsOnDiet m' = totalMealsOnDiet m + 1.
Proof.
  split; [exact sample_new_meal_parsed|].
  destruct (post_then_list_and_metrics
              (Sample.by_id Sample.bob "" (Some Sample.new_meal))
              (Sample.by_id Sample.bob "" None) Sample.world _
              sample_new_meal_parsed eq_refl)
    as (ms & ms' & m & m' & _ & _ & Hm & Hm' & _ & Ht & Hon & _).
  exists m, m'. split; [exact Hm|]. split; [exact Hm'|].
  split; [exact Ht | exact Hon].
Defined.

Lemma delete_then_list_witness :
  is_uuid (nth_uuid 3) = true
  /\ In (Sample.row 3 "alice" false (Sample.day 4)) (meals Sample.world)
  /\ unique_ids (meals Sample.world)
  /\ exists ms ms',
       fst (get_meals (Sample.by_id Sample.alice "" None) Sample.world)
       = Returned {| status := 200; payload := MealsBody ms |}
       /\ fst (get_meals (Sample.by_id Sample.alice "" None)
                 (snd (delete_meal (Sample.by_id Sample.bob (nth_uuid 3) None)
                                   Sample.world)))
          = Returned {| status := 200; payload := MealsBody ms' |}
       /\ List.length ms = S (List.length ms').
Proof.
  split; [exact sample_uuid3|]. split; [exact sample_row3|].
  split; [exact sample_ids_unique|].
  destruct (delete_then_list
              (Sample.by_id Sample.bob (nth_uuid 3) None)
              (Sample.by_id Sample.alice "" None) Sample.world
              (Sample.row 3 "alice" false (Sample.day 4))
              sample_uuid3 sample_row3 eq_refl)
    as (ms & ms' & H1 & H2 & _ & _ & Hlen).
  exists ms, ms'. split; [exact H1|]. split; [exact H2|].
  exact (Hlen sample_ids_unique eq_refl).
Defined.

Lemma post_then_delete_witness :
  createMealBodySchema (body (Sample.by_id Sample.bob "" (Some Sample.new_meal)))
  = inr {| CreateMealBody.name := "soup"; CreateMealBody.description := "late";
           CreateMealBody.isOnDiet := true;
           CreateMealBody.date := 1709164800000 |}
  /\ is_uuid (uuid_source (uuid_tick Sample.world)) = true
  /\ (forall r, In r (meals Sample.world) ->
                id r <> uuid_source (uuid_tick Sample.world))
  /\ meals (snd (delete_meal (Sample.by_id Sample.alice (nth_uuid 7) None)
                   (snd (post_meal
                           (Sample.by_id Sample.bob "" (Some Sample.new_meal))
                           Sample.world))))
     = meals Sample.world.
Proof.
  assert (Hu : is_uuid (uuid_source (uuid_tick Sample.world)) = true)
    by reflexivity.
  split; [exact sample_new_meal_parsed|]. split; [exact Hu|].
  split; [exact sample_fresh|].
  exact (proj2 (post_then_delete
                  (Sample.by_id Sample.bob "" (Some Sample.new_meal))
                  (Sample.by_id Sample.alice (nth_uuid 7) None)
                  Sample.world _ sample_new_meal_parsed Hu sample_fresh eq_refl)).
Defined.

Lemma listed_meal_is_fetched_witness :
  unique_ids (meals Sample.world)
  /\ In (Sample.row 2 "alice" true (Sample.day 6))
        (order_by_date_desc (owned "alice" (meals Sample.world)))
  /\ is_uuid (id (Sample.row 2 "alice" true (Sample.day 6))) = true
  /\ fst (get_meal (Sample.by_id Sample.bob (nth_uuid 2) None) Sample.world)
     = Returned {| status := 200;
                   payload := MealBody (Sample.row 2 "alice" true (Sample.day 6)) |}.
Proof.
  assert (Hin : In (Sample.row 2 "alice" true (Sample.day 6))
                   (order_by_date_desc (owned "alice" (meals Sample.world))))
    by (left; reflexivity).
  assert (Hu : is_uuid (id (Sample.row 2 "alice" true (Sample.day 6))) = true)
    by reflexivity.
  split; [exact sample_ids_unique|]. split; [exact Hin|]. split; [exact Hu|].
  exact (listed_meal_is_fetched
           (Sample.by_id Sample.alice "" None)
           (Sample.by_id Sample.bob (nth_uuid 2) None)
           Sample.world _ _ sample_ids_unique
           (get_meals_reply (Sample.by_id Sample.alice "" None) Sample.world)
           Hin Hu eq_refl).
Defined.

Lemma put_meal_accepts_iff_witness :
  is_uuid (nth_uuid 0) = true
  /\ find (has_id (nth_uuid 0)) (meals Sample.world)
     = Some (Sample.row 0 "alice" true (Sample.day 3))
  /\ fst (put_meal (Sample.by_id Sample.bob (nth_uuid 0) (Some Sample.no_keys))
                   Sample.world)
     = Returned {| status := 201; payload := NoBody |}
  /\ fst (put_meal (Sample.by_id Sample.bob (nth_uuid 0) None) Sample.world)
     <> Returned {| status := 201; payload := NoBody |}.
Proof.
  split; [exact sample_uuid0|]. split; [exact sample_find_row0|]. split.
  - apply (proj2 (put_meal_accepts_iff
                    (Sample.by_id Sample.bob (nth_uuid 0) (Some Sample.no_keys))
                    Sample.world _ sample_uuid0 sample_find_row0)).
    exists Sample.no_keys. simpl. tauto.
  - intro H.
    apply (proj1 (put_meal_accepts_iff
                    (Sample.by_id Sample.bob (nth_uuid 0) None)
                    Sample.world _ sample_uuid0 sample_find_row0)) in H.
    destruct H as (raw & Hraw & _). discriminate Hraw.
Defined.

Lemma put_meal_stores_civil_day_witness :
  is_uuid (nth_uuid 0) = true
  /\ editMealBodySchema (Some Sample.rename) = inr Sample.renamed
  /\ (Sample.day 40 + LocalTZA (Sample.day 40)
      = days_from_civil 2024 4 9 * msPerDay + 43200000)%Z
  /\ (1 <= 9 <= DaysInMonth 2024 4)%Z
  /\ exists row,
       find (has_id (nth_uuid 0))
            (meals (snd (put_meal
                           (Sample.by_id Sample.bob (nth_uuid 0) (Some Sample.rename))
                           Sample.world)))
       = Some row
       /\ date row = 9%Z.
Proof.
  assert (Hl : (Sample.day 40 + LocalTZA (Sample.day 40)
                = days_from_civil 2024 4 9 * msPerDay + 43200000)%Z)
    by reflexivity.
  assert (Hd : (1 <= 9 <= DaysInMonth 2024 4)%Z)
    by (split; intro E; discriminate E).
  split; [exact sample_uuid0|]. split; [exact sample_rename_parsed|].
  split; [exact Hl|]. split; [exact Hd|].
  destruct (put_meal_stores_civil_day
              (Sample.by_id Sample.bob (nth_uuid 0) (Some Sample.rename))
              Sample.world _ _ _ 2024 4 9 43200000
              sample_uuid0 sample_find_row0 sample_rename_parsed eq_refl Hl
              ltac:(lia) Hd ltac:(unfold msPerDay; lia))
    as (row & Hf & _ & Hdate).
  exists row. split; [exact Hf | exact Hdate].
Defined.

(** On a table that holds the drawn UUID already, the creation is
    answered 201 and the fetch by that id returns the older row. *)
Example sample_collision :
  fst (post_meal (Sample.by_id Sample.bob "" (Some Sample.new_meal)) Sample.clash)
  = Returned {| status := 201; payload := NoBody |}
  /\ fst (get_meal (Sample.by_id Sample.bob (nth_uuid 7) None)
            (snd (post_meal (Sample.by_id Sample.bob "" (Some Sample.new_meal))
                            Sample.clash)))
     = Returned {| status := 200;
                   payload := MealBody (Sample.row 7 "alice" false (Sample.day 1)) |}.
Proof. split; reflexivity. Qed.
